(** * Hybrid OCR routing: classifier, router and metrics

    A shallow embedding of the groq-fallback recipe:
    - [SimpleReceiptDetector] (SimpleReceiptDetector.ts): the classifier;
    - [HybridOcrStrategy] (HybridOcrStrategy.ts): routing, fallback and the
      metrics kept over the attempt history.

    JavaScript numbers are kept abstract behind the class [JsNumber], so that
    every function is written once, the way the source writes it, and can be
    read at two instances: exact rationals ([Q], for arithmetic reasoning) and
    IEEE 754 binary64 ([float], what the JavaScript engine computes).
    Properties of control flow are proved for every instance.

    What the embedding leaves out: the counters of the metrics are natural
    numbers (as doubles they are exact up to 2^53); strings are byte strings
    and [toLowerCase] acts on the ASCII letters, which is all the substring
    tests of the feature extraction can see; [console.log] is dropped. *)

From Stdlib Require Import ZArith QArith Qminmax Lqa Lia Bool List String Ascii.
From Stdlib Require Import PrimFloat Uint63.
Import ListNotations.
Close Scope Q_scope.

Set Implicit Arguments.

(* ------------------------------------------------------------------ *)
(** ** JavaScript numbers *)

Class JsNumber (R : Type) := {
  (** [num_dec n d] is the decimal literal whose value is [n/d]:
      [num_dec 85 100] is the source text [0.85]. *)
  num_dec : Z -> positive -> R;
  (** an integer-valued counter or [length] used as a number *)
  num_of_nat : nat -> R;
  num_add : R -> R -> R;
  num_sub : R -> R -> R;
  num_mul : R -> R -> R;
  num_div : R -> R -> R;
  (** [num_ltb a b] is [a < b], [num_leb a b] is [a <= b] *)
  num_ltb : R -> R -> bool;
  num_leb : R -> R -> bool;
  (** [Math.min] *)
  num_min : R -> R -> R;
  (** the numbers that are false in a boolean context: [0], [-0], [NaN] *)
  num_falsy : R -> bool
}.

Declare Scope js_scope.
Delimit Scope js_scope with js.
Notation "a + b" := (num_add a b) : js_scope.
Notation "a - b" := (num_sub a b) : js_scope.
Notation "a * b" := (num_mul a b) : js_scope.
Notation "a / b" := (num_div a b) : js_scope.
Notation "a <? b" := (num_ltb a b) : js_scope.
Notation "a >? b" := (num_ltb b a) : js_scope.
Notation "a >=? b" := (num_leb b a) : js_scope.

(** [x || 0] on a number. *)
Definition num_or_zero {R} `{JsNumber R} (x : R) : R :=
  if num_falsy x then num_dec 0 1 else x.

(** Exact rationals. Every division of the source is guarded by a test that
    the divisor is positive, so [Qdiv]'s value at 0 is never used. *)
#[global] Instance Q_JsNumber : JsNumber Q := {|
  num_dec := Qmake;
  num_of_nat := fun n => inject_Z (Z.of_nat n);
  num_add := Qplus;
  num_sub := Qminus;
  num_mul := Qmult;
  num_div := Qdiv;
  num_ltb := fun a b => negb (Qle_bool b a);
  num_leb := Qle_bool;
  num_min := fun a b => if Qle_bool a b then a else b;
  num_falsy := fun x => Qeq_bool x 0%Q
|}.

(** IEEE 754 binary64, round to nearest even. A decimal literal is the
    correctly rounded quotient of two small integers, which is the double the
    JavaScript parser produces for it. *)
Definition float_of_Z (z : Z) : float :=
  match z with
  | Zneg p => PrimFloat.opp (PrimFloat.of_uint63 (Uint63.of_Z (Zpos p)))
  | _ => PrimFloat.of_uint63 (Uint63.of_Z z)
  end.

Definition float_min (a b : float) : float :=
  if PrimFloat.is_nan a || PrimFloat.is_nan b then PrimFloat.nan
  else if PrimFloat.ltb a b then a
  else if PrimFloat.ltb b a then b
  else if PrimFloat.get_sign a then a else b.

#[global] Instance float_JsNumber : JsNumber float := {|
  num_dec := fun n d => PrimFloat.div (float_of_Z n) (float_of_Z (Zpos d));
  num_of_nat := fun n => float_of_Z (Z.of_nat n);
  num_add := PrimFloat.add;
  num_sub := PrimFloat.sub;
  num_mul := PrimFloat.mul;
  num_div := PrimFloat.div;
  num_ltb := PrimFloat.ltb;
  num_leb := PrimFloat.leb;
  num_min := float_min;
  num_falsy := fun x => PrimFloat.is_zero x || PrimFloat.is_nan x
|}.

(* ------------------------------------------------------------------ *)
(** ** The string operations the feature extraction uses *)

Module JsString.

Local Open Scope string_scope.

(** [s.split(sep)] for a one-character separator. *)
Fixpoint split (sep : ascii) (s : string) : list string :=
  match s with
  | EmptyString => [EmptyString]
  | String c rest =>
      if Ascii.eqb c sep then EmptyString :: split sep rest
      else match split sep rest with
           | [] => [String c EmptyString]
           | piece :: pieces => String c piece :: pieces
           end
  end.

Definition lowerChar (c : ascii) : ascii :=
  let n := nat_of_ascii c in
  if (65 <=? n)%nat && (n <=? 90)%nat then ascii_of_nat (n + 32) else c.

(** [s.toLowerCase()] on the ASCII letters. *)
Fixpoint toLowerCase (s : string) : string :=
  match s with
  | EmptyString => EmptyString
  | String c rest => String (lowerChar c) (toLowerCase rest)
  end.

(** [s.includes(sub)]. *)
Fixpoint includes (s sub : string) : bool :=
  String.prefix sub s ||
  match s with
  | EmptyString => false
  | String _ rest => includes rest sub
  end.

(** [pieces.join(sep)]. *)
Fixpoint join (sep : string) (pieces : list string) : string :=
  match pieces with
  | [] => ""
  | [piece] => piece
  | piece :: rest => piece ++ sep ++ join sep rest
  end.

End JsString.

(* ------------------------------------------------------------------ *)
(** ** receipt-extraction/types.ts *)

Module ReceiptExtraction.

Record ReceiptLineItem := {
  description : string;
  quantity : Z;
  unitPriceSatang : Z;
  totalSatang : Z
}.

Inductive ImageFormat := jpeg | png | gif | webp.

(** [ReceiptOcrResult]; the currency field has the single value ['THB']. *)
Record ReceiptOcrResult (R : Type) := {
  amountSatang : Z;
  vatAmountSatang : option Z;
  vendorName : option string;
  issueDate : option string;
  rawText : option string;
  confidence : option R;
  lineItems : option (list ReceiptLineItem)
}.

Record ExtractReceiptParams := {
  correlationId : string;
  imageBase64 : string;
  imageFormat : option ImageFormat
}.

End ReceiptExtraction.

(* ------------------------------------------------------------------ *)
(** ** groq-fallback/types.ts *)

(** The recipe imports [OcrResult] and [OcrInput] from the receipt-extraction
  types; they are the result and the parameter of the Claude adapter. *)
Definition OcrResult (R : Type) : Type := ReceiptExtraction.ReceiptOcrResult R.
Definition OcrInput : Type := ReceiptExtraction.ExtractReceiptParams.

Record Features (R : Type) := {
  brightness : R;
  textDensity : R;
  hasStandardFormat : bool;
  hasHandwriting : bool;
  hasFading : bool
}.

Record ReceiptClassification (R : Type) := {
  isSimple : bool;
  confidence : R;
  reason : option string;
  features : option (Features R)
}.

Inductive Provider := claude | groq | paddle.

Record OcrAttempt (R : Type) := {
  provider : Provider;
  success : bool;
  cost : R;
  duration : nat;
  result : option (OcrResult R);
  error : option string
}.

Record HybridMetrics (R : Type) := {
  totalReceipts : nat;
  simpleCount : nat;
  complexCount : nat;
  groqSuccessRate : R;
  claudeFallbackRate : nat;
  totalCost : R;
  avgCostPerReceipt : R;
  savingsVsClaudeOnly : R;
  manualReviewRate : R
}.

Record HybridStrategyConfig (R : Type) := {
  simpleConfidenceThreshold : R;
  enableFallback : bool;
  maxGroqRetries : nat;
  enableMetrics : bool
}.

(* ------------------------------------------------------------------ *)
(** ** SimpleReceiptDetector.ts *)

Module SimpleReceiptDetector.
Section Detector.

Context {R : Type} `{JsNumber R}.
Local Open Scope string_scope.
Local Open Scope js_scope.

Record Config := {
  brightnessThreshold : R;
  textDensityThreshold : R;
  minConfidence : R
}.

(** The configuration the constructor sets when it is given none. *)
Definition defaultConfig : Config := {|
  brightnessThreshold := num_dec 6 10;
  textDensityThreshold := num_dec 4 10;
  minConfidence := num_dec 85 100
|}.

(** *** Feature extraction

    The source tree holds two copies of the class. They differ in
    [extractFeatures] only: one reads the features off the name inside a mock
    image string, the other off the length of the image string. *)

(** [imageBase64.split('-')[1]?.toLowerCase() || ''] *)
Definition imageNameOf (imageBase64 : string) : string :=
  match nth_error (JsString.split "-" imageBase64) 1 with
  | Some piece => JsString.toLowerCase piece
  | None => ""
  end.

(** [extractFeatures] of the copy that sits with the mock Groq adapter. *)
Definition extractFeaturesByName (imageBase64 : string) : Features R :=
  let imageName := imageNameOf imageBase64 in
  let '(brightness, hasStandardFormat) :=
    if JsString.includes imageName "7eleven" || JsString.includes imageName "tesco"
    then (num_dec 85 100, true)
    else if JsString.includes imageName "handwritten" || JsString.includes imageName "faded"
    then (num_dec 4 10, false)
    else (num_dec 7 10, false) in
  {| brightness := brightness;
     textDensity := num_dec 7 10;
     hasStandardFormat := hasStandardFormat;
     hasHandwriting := JsString.includes imageName "handwritten";
     hasFading := JsString.includes imageName "faded" |}.

Definition estimateAspectRatio (imageBase64 : string) : R := num_dec 25 10.

Definition detectStandardFormat (imageBase64 : string) : bool :=
  let aspectRatio := estimateAspectRatio imageBase64 in
  (aspectRatio >? num_dec 15 10) && (aspectRatio <? num_dec 4 1).

(** [extractFeatures] of groq-fallback/SimpleReceiptDetector.ts. *)
Definition extractFeaturesBySize (imageBase64 : string) : Features R :=
  let imageSize := String.length imageBase64 in
  let brightness := num_min (num_of_nat imageSize / num_dec 100000 1) (num_dec 1 1) in
  let hasStandardFormat := detectStandardFormat imageBase64 in
  {| brightness := brightness;
     textDensity := num_dec 7 10;
     hasStandardFormat := hasStandardFormat;
     hasHandwriting := false;
     hasFading := brightness <? num_dec 5 10 |}.

(** *** The instance: its configuration, and the [extractFeatures] of the
    copy it was built from. *)
Record t := {
  config : Config;
  extractFeatures : string -> Features R
}.

(** [new SimpleReceiptDetector()], of either copy. *)
Definition newByName : t :=
  {| config := defaultConfig; extractFeatures := extractFeaturesByName |}.

Definition newBySize : t :=
  {| config := defaultConfig; extractFeatures := extractFeaturesBySize |}.

Definition evaluateSimplicity (config : Config) (features : option (Features R)) : bool :=
  match features with
  | None => false
  | Some features =>
      (brightness features >? brightnessThreshold config) &&
      hasStandardFormat features &&
      negb (hasHandwriting features) &&
      negb (hasFading features)
  end.

Definition calculateConfidence (features : option (Features R)) : R :=
  match features with
  | None => num_dec 0 1
  | Some features =>
      let confidence := num_dec 0 1 in
      let confidence := confidence + brightness features * num_dec 4 10 in
      let confidence := confidence + textDensity features * num_dec 3 10 in
      let confidence :=
        confidence +
        (if hasStandardFormat features then num_dec 1 1 else num_dec 0 1) * num_dec 3 10 in
      let confidence :=
        if hasHandwriting features then confidence * num_dec 5 10 else confidence in
      let confidence :=
        if hasFading features then confidence * num_dec 7 10 else confidence in
      num_min confidence (num_dec 1 1)
  end.

Definition generateReason (config : Config) (features : option (Features R))
    (isSimple : bool) : string :=
  match features with
  | None => "No features detected"
  | Some features =>
      if isSimple then "Clear, standard format receipt - suitable for Groq parsing"
      else
        let reasons :=
          ((if brightness features <? brightnessThreshold config
            then ["low brightness"] else []) ++
           (if negb (hasStandardFormat features) then ["non-standard format"] else []) ++
           (if hasHandwriting features then ["handwritten"] else []) ++
           (if hasFading features then ["faded text"] else []))%list in
        "Complex receipt (" ++ JsString.join ", " reasons ++ ") - using Claude Vision"
  end.

Definition classify (this : t) (imageBase64 : string) : ReceiptClassification R :=
  let features := extractFeatures this imageBase64 in
  let isSimple := evaluateSimplicity (config this) (Some features) in
  let confidence := calculateConfidence (Some features) in
  {| isSimple := isSimple;
     confidence := confidence;
     reason := Some (generateReason (config this) (Some features) isSimple);
     features := Some features |}.

End Detector.
Arguments Config : clear implicits.
Arguments t : clear implicits.
End SimpleReceiptDetector.

(* ------------------------------------------------------------------ *)
(** ** HybridOcrStrategy.ts *)

Module HybridOcrStrategy.
Section Strategy.

Context {R : Type} `{JsNumber R}.
Local Open Scope string_scope.
Local Open Scope js_scope.

(** *** The two adapters

    The adapters are external services. What one invocation of
    [extractReceipt] needs to know of them is the reply each would give to
    the one call it can receive: a result after some elapsed milliseconds
    (measured with [Date.now()] around the call), or a rejection with an
    [Error] whose [message] is given. *)

Inductive Reply :=
| Resolved (elapsed : nat) (result : OcrResult R)
| Rejected (message : string).

Record Adapters := {
  parseReceiptText : string -> string -> Reply;
  extractReceiptFromImage : OcrInput -> Reply
}.

(** The calls made to the adapters, oldest first. *)
Inductive AdapterCall :=
| GroqParseReceiptText (rawText correlationId : string)
| ClaudeExtractReceiptFromImage (input : OcrInput).

(** *** The instance *)

Record t := {
  detector : SimpleReceiptDetector.t R;
  config : HybridStrategyConfig R;
  metrics : HybridMetrics R;
  attempts : list (OcrAttempt R)
}.

Definition setMetrics (this : t) (m : HybridMetrics R) : t :=
  {| detector := detector this; config := config this;
     metrics := m; attempts := attempts this |}.

Definition setAttempts (this : t) (l : list (OcrAttempt R)) : t :=
  {| detector := detector this; config := config this;
     metrics := metrics this; attempts := l |}.

Definition initMetrics : HybridMetrics R := {|
  totalReceipts := 0;
  simpleCount := 0;
  complexCount := 0;
  groqSuccessRate := num_dec 0 1;
  claudeFallbackRate := 0;
  totalCost := num_dec 0 1;
  avgCostPerReceipt := num_dec 0 1;
  savingsVsClaudeOnly := num_dec 0 1;
  manualReviewRate := num_dec 0 1
|}.

(** [Partial<HybridStrategyConfig>]: each key present or not. *)
Record PartialConfig := {
  simpleConfidenceThreshold_opt : option R;
  enableFallback_opt : option bool;
  maxGroqRetries_opt : option nat;
  enableMetrics_opt : option bool
}.

Definition noOverrides : PartialConfig := {|
  simpleConfidenceThreshold_opt := None;
  enableFallback_opt := None;
  maxGroqRetries_opt := None;
  enableMetrics_opt := None
|}.

Definition orDefault {A} (o : option A) (d : A) : A :=
  match o with Some a => a | None => d end.

(** The constructor: the defaults, overridden by the keys of [config]. The
    detector it builds with [new SimpleReceiptDetector()] is an argument,
    being of the copy of the class the import resolves to. *)
Definition new (detector : SimpleReceiptDetector.t R) (config : PartialConfig) : t := {|
  detector := detector;
  config := {|
    simpleConfidenceThreshold := orDefault (simpleConfidenceThreshold_opt config) (num_dec 85 100);
    enableFallback := orDefault (enableFallback_opt config) true;
    maxGroqRetries := orDefault (maxGroqRetries_opt config) 1;
    enableMetrics := orDefault (enableMetrics_opt config) true
  |};
  metrics := initMetrics;
  attempts := []
|}.

(** *** Metrics *)

Definition isGroq (p : Provider) : bool :=
  match p with groq => true | _ => false end.

(** [a.result && (a.result.confidence || 0) < 0.95] *)
Definition lowConfidence (a : OcrAttempt R) : bool :=
  match result a with
  | None => false
  | Some r =>
      match ReceiptExtraction.confidence r with
      | Some c => num_or_zero c <? num_dec 95 100
      | None => num_dec 0 1 <? num_dec 95 100
      end
  end.

Definition updateMetrics (this : t) : t :=
  let m := metrics this in
  let groqAttempts := filter (fun a => isGroq (provider a)) (attempts this) in
  let groqSuccess := List.length (filter (fun a => success a) groqAttempts) in
  let groqSuccessRate' :=
    if (0 <? List.length groqAttempts)%nat
    then num_of_nat groqSuccess / num_of_nat (List.length groqAttempts)
    else num_dec 0 1 in
  let avgCostPerReceipt' :=
    if (0 <? totalReceipts m)%nat
    then totalCost m / num_of_nat (totalReceipts m)
    else num_dec 0 1 in
  let claudeOnlyCost := num_of_nat (totalReceipts m) * num_dec 50 100 in
  let savingsVsClaudeOnly' := claudeOnlyCost - totalCost m in
  let lowConfidenceCount := List.length (filter lowConfidence (attempts this)) in
  let manualReviewRate' :=
    if (0 <? totalReceipts m)%nat
    then num_of_nat lowConfidenceCount / num_of_nat (totalReceipts m)
    else num_dec 0 1 in
  setMetrics this {|
    totalReceipts := totalReceipts m;
    simpleCount := simpleCount m;
    complexCount := complexCount m;
    groqSuccessRate := groqSuccessRate';
    claudeFallbackRate := claudeFallbackRate m;
    totalCost := totalCost m;
    avgCostPerReceipt := avgCostPerReceipt';
    savingsVsClaudeOnly := savingsVsClaudeOnly';
    manualReviewRate := manualReviewRate'
  |}.

Definition incrTotalReceipts (m : HybridMetrics R) : HybridMetrics R :=
  {| totalReceipts := S (totalReceipts m);
     simpleCount := simpleCount m; complexCount := complexCount m;
     groqSuccessRate := groqSuccessRate m; claudeFallbackRate := claudeFallbackRate m;
     totalCost := totalCost m; avgCostPerReceipt := avgCostPerReceipt m;
     savingsVsClaudeOnly := savingsVsClaudeOnly m; manualReviewRate := manualReviewRate m |}.

Definition incrSimpleCount (m : HybridMetrics R) : HybridMetrics R :=
  {| totalReceipts := totalReceipts m;
     simpleCount := S (simpleCount m); complexCount := complexCount m;
     groqSuccessRate := groqSuccessRate m; claudeFallbackRate := claudeFallbackRate m;
     totalCost := totalCost m; avgCostPerReceipt := avgCostPerReceipt m;
     savingsVsClaudeOnly := savingsVsClaudeOnly m; manualReviewRate := manualReviewRate m |}.

Definition incrComplexCount (m : HybridMetrics R) : HybridMetrics R :=
  {| totalReceipts := totalReceipts m;
     simpleCount := simpleCount m; complexCount := S (complexCount m);
     groqSuccessRate := groqSuccessRate m; claudeFallbackRate := claudeFallbackRate m;
     totalCost := totalCost m; avgCostPerReceipt := avgCostPerReceipt m;
     savingsVsClaudeOnly := savingsVsClaudeOnly m; manualReviewRate := manualReviewRate m |}.

Definition incrClaudeFallbackRate (m : HybridMetrics R) : HybridMetrics R :=
  {| totalReceipts := totalReceipts m;
     simpleCount := simpleCount m; complexCount := complexCount m;
     groqSuccessRate := groqSuccessRate m; claudeFallbackRate := S (claudeFallbackRate m);
     totalCost := totalCost m; avgCostPerReceipt := avgCostPerReceipt m;
     savingsVsClaudeOnly := savingsVsClaudeOnly m; manualReviewRate := manualReviewRate m |}.

Definition addTotalCost (c : R) (m : HybridMetrics R) : HybridMetrics R :=
  {| totalReceipts := totalReceipts m;
     simpleCount := simpleCount m; complexCount := complexCount m;
     groqSuccessRate := groqSuccessRate m; claudeFallbackRate := claudeFallbackRate m;
     totalCost := totalCost m + c; avgCostPerReceipt := avgCostPerReceipt m;
     savingsVsClaudeOnly := savingsVsClaudeOnly m; manualReviewRate := manualReviewRate m |}.

Definition recordAttempt (attempt : OcrAttempt R) (this : t) : t :=
  if negb (enableMetrics (config this)) then this
  else
    let this := setAttempts this (attempts this ++ [attempt])%list in
    let this := setMetrics this (incrTotalReceipts (metrics this)) in
    let this := setMetrics this (addTotalCost (cost attempt) (metrics this)) in
    updateMetrics this.

Definition getMetrics (this : t) : HybridMetrics R := metrics this.

Definition getAttempts (this : t) : list (OcrAttempt R) := attempts this.

Definition resetMetrics (this : t) : t :=
  setAttempts (setMetrics this initMetrics) [].

(** *** Asynchronous methods

    An [async] method runs on the instance and on the log of adapter calls,
    and completes by returning a value or by throwing an [Error], of which
    the message is kept. The changes it made stay in both cases. *)

Record World := {
  self : t;
  calls : list AdapterCall
}.

Inductive Completion (A : Type) :=
| Returned (value : A)
| Thrown (message : string).
Arguments Thrown {A} message.

Definition Async (A : Type) : Type := World -> Completion A * World.

Definition ret {A} (a : A) : Async A := fun w => (Returned a, w).

Definition throw {A} (message : string) : Async A := fun w => (Thrown message, w).

Definition bind {A B} (m : Async A) (k : A -> Async B) : Async B :=
  fun w =>
    match m w with
    | (Returned a, w') => k a w'
    | (Thrown message, w') => (Thrown message, w')
    end.

Definition tryCatch {A} (body : Async A) (handler : string -> Async A) : Async A :=
  fun w =>
    match body w with
    | (Returned a, w') => (Returned a, w')
    | (Thrown message, w') => handler message w'
    end.

Definition getThis : Async t := fun w => (Returned (self w), w).

Definition update (f : t -> t) : Async unit :=
  fun w => (Returned tt, {| self := f (self w); calls := calls w |}).

(** [await adapter.method(...)]: the call is logged, and its reply is the
    elapsed time and the result, or the rejection thrown. *)
Definition await (call : AdapterCall) (reply : Reply) : Async (nat * OcrResult R) :=
  fun w =>
    let w' := {| self := self w; calls := (calls w ++ [call])%list |} in
    match reply with
    | Resolved elapsed result => (Returned (elapsed, result), w')
    | Rejected message => (Thrown message, w')
    end.

Notation "x <- m ;; k" := (bind m (fun x => k))
  (at level 61, m at next level, right associativity).
Notation "m ;; k" := (bind m (fun _ => k))
  (at level 61, right associativity).

Definition classifyReceipt (imageBase64 : string) : Async (ReceiptClassification R) :=
  this <- getThis ;;
  ret (SimpleReceiptDetector.classify (detector this) imageBase64).

(** The text the mock extractor returns for every image. *)
Definition mockRawText : string := "7-ELEVEN
สาขา 12345
กรุงเทพฯ

กาแฟ            45.00
ขนมปัง          35.00
────────────────
รวม             80.00
ภาษี 7%          5.60
────────────────
รวมทั้งสิ้น      85.60

วันที่ 22/01/2569
เวลา 14:35".

Definition extractRawText (imageBase64 : string) : Async string :=
  ret mockRawText.

Definition processComplexReceipt (adapters : Adapters) (input : OcrInput)
    (classification : ReceiptClassification R) : Async (OcrResult R) :=
  update (fun this => setMetrics this (incrComplexCount (metrics this))) ;;
  reply <- await (ClaudeExtractReceiptFromImage input)
                 (extractReceiptFromImage adapters input) ;;
  let '(duration, result) := reply in
  update (recordAttempt {|
    provider := claude;
    success := true;
    cost := num_dec 50 100;
    duration := duration;
    result := Some result;
    error := None |}) ;;
  ret result.

Definition processSimpleReceipt (adapters : Adapters) (input : OcrInput)
    (classification : ReceiptClassification R) : Async (OcrResult R) :=
  let imageBase64 := ReceiptExtraction.imageBase64 input in
  let correlationId := ReceiptExtraction.correlationId input in
  update (fun this => setMetrics this (incrSimpleCount (metrics this))) ;;
  tryCatch
    (rawText <- extractRawText imageBase64 ;;
     reply <- await (GroqParseReceiptText rawText correlationId)
                    (parseReceiptText adapters rawText correlationId) ;;
     let '(duration, result) := reply in
     update (recordAttempt {|
       provider := groq;
       success := true;
       cost := num_dec 5 100;
       duration := duration;
       result := Some result;
       error := None |}) ;;
     ret result)
    (fun message =>
     update (recordAttempt {|
       provider := groq;
       success := false;
       cost := num_dec 0 1;
       duration := 0;
       result := None;
       error := Some message |}) ;;
     this <- getThis ;;
     if enableFallback (config this) then
       update (fun this => setMetrics this (incrClaudeFallbackRate (metrics this))) ;;
       processComplexReceipt adapters input classification
     else
       throw message).

Definition extractReceipt (adapters : Adapters) (input : OcrInput) : Async (OcrResult R) :=
  let imageBase64 := ReceiptExtraction.imageBase64 input in
  classification <- classifyReceipt imageBase64 ;;
  this <- getThis ;;
  if isSimple classification &&
     (confidence classification >=? simpleConfidenceThreshold (config this))
  then processSimpleReceipt adapters input classification
  else processComplexReceipt adapters input classification.

(** A caller that invokes [extractReceipt] once per request, in order, and
    catches what it throws (the loop of example.ts). Each request comes with
    the replies the adapters have for it. *)
Fixpoint invocations (requests : list (Adapters * OcrInput)) (w : World) : World :=
  match requests with
  | [] => w
  | (adapters, input) :: rest => invocations rest (snd (extractReceipt adapters input w))
  end.

End Strategy.
Arguments Reply : clear implicits.
Arguments Adapters : clear implicits.
Arguments t : clear implicits.
Arguments PartialConfig : clear implicits.
Arguments World : clear implicits.
Arguments Async : clear implicits.
Arguments Thrown {A} message.
End HybridOcrStrategy.

(* ------------------------------------------------------------------ *)
(** ** Vocabulary of the properties *)

Import SimpleReceiptDetector HybridOcrStrategy.

Section Vocabulary.

Context {R : Type} `{JsNumber R}.
Local Open Scope js_scope.

(** The route decision: the verdict is simple and its confidence reaches the
    configured threshold. *)
Definition routesToGroq (this : HybridOcrStrategy.t R) (input : OcrInput) : bool :=
  let verdict := classify (detector this) (ReceiptExtraction.imageBase64 input) in
  isSimple verdict && (confidence verdict >=? simpleConfidenceThreshold (config this)).

(** The call each path makes. *)
Definition groqCall (input : OcrInput) : AdapterCall :=
  GroqParseReceiptText mockRawText (ReceiptExtraction.correlationId input).

Definition claudeCall (input : OcrInput) : AdapterCall :=
  ClaudeExtractReceiptFromImage input.

Definition groqReply (adapters : Adapters R) (input : OcrInput) : Reply R :=
  parseReceiptText adapters mockRawText (ReceiptExtraction.correlationId input).

Definition claudeReply (adapters : Adapters R) (input : OcrInput) : Reply R :=
  extractReceiptFromImage adapters input.

(** The three attempts the source records. *)
Definition groqSucceeded (elapsed : nat) (r : OcrResult R) : OcrAttempt R :=
  {| provider := groq; success := true; cost := num_dec 5 100;
     duration := elapsed; result := Some r; error := None |}.

Definition groqFailed (message : string) : OcrAttempt R :=
  {| provider := groq; success := false; cost := num_dec 0 1;
     duration := 0; result := None; error := Some message |}.

Definition claudeSucceeded (elapsed : nat) (r : OcrResult R) : OcrAttempt R :=
  {| provider := claude; success := true; cost := num_dec 50 100;
     duration := elapsed; result := Some r; error := None |}.

(** Whether the Claude path runs for a request: directly, or as the fallback
    of a rejected Groq call. *)
Definition preciseRuns (adapters : Adapters R) (this : HybridOcrStrategy.t R)
    (input : OcrInput) : bool :=
  if routesToGroq this input then
    match groqReply adapters input with
    | Resolved _ _ => false
    | Rejected _ => enableFallback (config this)
    end
  else true.

(** The three counters the paths bump: [this.metrics.simpleCount++] and the like. *)
Definition withSimpleCount (this : HybridOcrStrategy.t R) : HybridOcrStrategy.t R :=
  setMetrics this (incrSimpleCount (metrics this)).

Definition withComplexCount (this : HybridOcrStrategy.t R) : HybridOcrStrategy.t R :=
  setMetrics this (incrComplexCount (metrics this)).

Definition withFallback (this : HybridOcrStrategy.t R) : HybridOcrStrategy.t R :=
  setMetrics this (incrClaudeFallbackRate (metrics this)).

(** What [recordAttempt] appends to the history. *)
Definition recorded (a : OcrAttempt R) (this : HybridOcrStrategy.t R) : list (OcrAttempt R) :=
  if enableMetrics (config this) then [a] else [].

(** Two instances agree on everything [recordAttempt] writes: the history,
    [totalReceipts], [totalCost] and the four values [updateMetrics] derives
    (and on the configuration and the detector, which nothing writes). *)
Definition sameLedger (a b : HybridOcrStrategy.t R) : Prop :=
  config a = config b /\
  detector a = detector b /\
  attempts a = attempts b /\
  totalReceipts (metrics a) = totalReceipts (metrics b) /\
  totalCost (metrics a) = totalCost (metrics b) /\
  groqSuccessRate (metrics a) = groqSuccessRate (metrics b) /\
  avgCostPerReceipt (metrics a) = avgCostPerReceipt (metrics b) /\
  savingsVsClaudeOnly (metrics a) = savingsVsClaudeOnly (metrics b) /\
  manualReviewRate (metrics a) = manualReviewRate (metrics b).

(** The three rates of a metrics snapshot. *)
Definition rates (m : HybridMetrics R) : R * R * R :=
  (groqSuccessRate m, avgCostPerReceipt m, manualReviewRate m).

End Vocabulary.

(** The feature snapshot of scenario A. *)
Definition scenarioA {R} `{JsNumber R} : Features R :=
  {| brightness := num_dec 85 100;
     textDensity := num_dec 7 10;
     hasStandardFormat := true;
     hasHandwriting := false;
     hasFading := false |}.

(** The confidence as the specification words it: the weighted sum, the two
    penalties as factors, the result clamped to the unit interval. *)
Definition spec_weightedSum (f : Features Q) : Q :=
  (brightness f * (4 # 10) + textDensity f * (3 # 10) +
   (if hasStandardFormat f then 1 else 0) * (3 # 10))%Q.

Definition spec_penalty (f : Features Q) : Q :=
  ((if hasHandwriting f then 5 # 10 else 1) * (if hasFading f then 7 # 10 else 1))%Q.

Definition spec_clamp01 (x : Q) : Q := Qmax 0 (Qmin x 1).

Definition spec_confidence (f : Features Q) : Q :=
  spec_clamp01 (spec_weightedSum f * spec_penalty f)%Q.

(* ------------------------------------------------------------------ *)
(** ** Concrete requests and adapters *)

Section Fixtures.

Context {R : Type} `{JsNumber R}.
Local Open Scope string_scope.

(** What the mock Claude adapter extracts (amount 35000, confidence 0.95). *)
Definition claudeResult : OcrResult R :=
  {| ReceiptExtraction.amountSatang := 35000;
     ReceiptExtraction.vatAmountSatang := Some 2280%Z;
     ReceiptExtraction.vendorName := Some "Local Restaurant";
     ReceiptExtraction.issueDate := Some "2026-01-22";
     ReceiptExtraction.rawText := None;
     ReceiptExtraction.confidence := Some (num_dec 95 100);
     ReceiptExtraction.lineItems := None |}.

(** What [MockGroqAdapter.parseReceiptText] returns. *)
Definition groqResult : OcrResult R :=
  {| ReceiptExtraction.amountSatang := 8560;
     ReceiptExtraction.vatAmountSatang := Some 560%Z;
     ReceiptExtraction.vendorName := Some "7-Eleven Mock";
     ReceiptExtraction.issueDate := Some "2026-01-22";
     ReceiptExtraction.rawText := Some mockRawText;
     ReceiptExtraction.confidence := Some (num_dec 88 100);
     ReceiptExtraction.lineItems := None |}.

Definition groqError : string := "Groq parsing failed: Groq API error: 401".

Definition claudeError : string := "Claude API error: 529".

Definition bothUp : Adapters R :=
  {| parseReceiptText := fun _ _ => Resolved 100 groqResult;
     extractReceiptFromImage := fun _ => Resolved 1200 claudeResult |}.

Definition groqDown : Adapters R :=
  {| parseReceiptText := fun _ _ => Rejected groqError;
     extractReceiptFromImage := fun _ => Resolved 1200 claudeResult |}.

Definition claudeDown : Adapters R :=
  {| parseReceiptText := fun _ _ => Resolved 100 groqResult;
     extractReceiptFromImage := fun _ => Rejected claudeError |}.

Definition bothDown : Adapters R :=
  {| parseReceiptText := fun _ _ => Rejected groqError;
     extractReceiptFromImage := fun _ => Rejected claudeError |}.

(** Two of the demo receipts of example.ts. *)
Definition sevenEleven : OcrInput :=
  {| ReceiptExtraction.correlationId := "001";
     ReceiptExtraction.imageBase64 := "mock-7eleven-receipt";
     ReceiptExtraction.imageFormat := None |}.

Definition restaurant : OcrInput :=
  {| ReceiptExtraction.correlationId := "003";
     ReceiptExtraction.imageBase64 := "mock-restaurant-receipt";
     ReceiptExtraction.imageFormat := None |}.

(** A router just constructed, no adapter called yet. *)
Definition fresh (detector : SimpleReceiptDetector.t R) (config : PartialConfig R) : World R :=
  {| self := new detector config; calls := [] |}.

Fixpoint padding (n : nat) : string :=
  match n with
  | O => ""
  | S n => String "A" (padding n)
  end.

(** A scan long enough for the size heuristic to call it bright, whose mock
    name is that of a 7-Eleven receipt. *)
Definition sevenElevenScan : OcrInput :=
  {| ReceiptExtraction.correlationId := "001";
     ReceiptExtraction.imageBase64 :=
       "mock-7eleven-" ++ padding (300 * 300);
     ReceiptExtraction.imageFormat := None |}.

Definition metricsOff : PartialConfig R :=
  {| simpleConfidenceThreshold_opt := None;
     enableFallback_opt := None;
     maxGroqRetries_opt := None;
     enableMetrics_opt := Some false |}.

Definition fallbackOff : PartialConfig R :=
  {| simpleConfidenceThreshold_opt := None;
     enableFallback_opt := Some false;
     maxGroqRetries_opt := None;
     enableMetrics_opt := None |}.

Definition fallbackOffMetricsOff : PartialConfig R :=
  {| simpleConfidenceThreshold_opt := None;
     enableFallback_opt := Some false;
     maxGroqRetries_opt := None;
     enableMetrics_opt := Some false |}.

(** [new SimpleReceiptDetector({ brightnessThreshold: 0.9 })] of the copy that
    reads the mock name: the defaults of the constructor, with that one key
    replaced. *)
Definition strictByName : SimpleReceiptDetector.t R :=
  {| SimpleReceiptDetector.config :=
       {| brightnessThreshold := num_dec 9 10;
          textDensityThreshold := textDensityThreshold defaultConfig;
          minConfidence := minConfidence defaultConfig |};
     extractFeatures := extractFeaturesByName |}.

End Fixtures.

(* ------------------------------------------------------------------ *)
(** ** How the asynchronous methods complete *)

Section RouterFacts.

Context {R : Type} `{JsNumber R}.
Local Open Scope js_scope.

Lemma extractReceipt_route (adapters : Adapters R) (input : OcrInput) (w : World R) :
  extractReceipt adapters input w =
  if routesToGroq (self w) input
  then processSimpleReceipt adapters input
         (classify (detector (self w)) (ReceiptExtraction.imageBase64 input)) w
  else processComplexReceipt adapters input
         (classify (detector (self w)) (ReceiptExtraction.imageBase64 input)) w.
Proof.
  unfold extractReceipt, routesToGroq, classifyReceipt, bind, getThis, ret.
  cbn -[classify]. destruct (_ && _); reflexivity.
Qed.

Lemma processComplexReceipt_resolved adapters input c w elapsed r :
  claudeReply adapters input = Resolved elapsed r ->
  processComplexReceipt adapters input c w =
  (Returned r,
   {| self := recordAttempt (claudeSucceeded elapsed r) (withComplexCount (self w));
      calls := calls w ++ [claudeCall input] |}).
Proof.
  unfold claudeReply, processComplexReceipt, bind, update, await, ret. cbn.
  intros ->. reflexivity.
Qed.

Lemma processComplexReceipt_rejected adapters input c w message :
  claudeReply adapters input = Rejected message ->
  processComplexReceipt adapters input c w =
  (Thrown message,
   {| self := withComplexCount (self w);
      calls := calls w ++ [claudeCall input] |}).
Proof.
  unfold claudeReply, processComplexReceipt, bind, update, await, ret. cbn.
  intros ->. reflexivity.
Qed.

Lemma processSimpleReceipt_resolved adapters input c w elapsed r :
  groqReply adapters input = Resolved elapsed r ->
  processSimpleReceipt adapters input c w =
  (Returned r,
   {| self := recordAttempt (groqSucceeded elapsed r) (withSimpleCount (self w));
      calls := calls w ++ [groqCall input] |}).
Proof.
  unfold groqReply, processSimpleReceipt, tryCatch, extractRawText, bind, update, await, ret.
  cbn. intros ->. reflexivity.
Qed.

Lemma config_recordAttempt (a : OcrAttempt R) (this : HybridOcrStrategy.t R) :
  config (recordAttempt a this) = config this.
Proof. unfold recordAttempt. destruct (enableMetrics (config this)); reflexivity. Qed.

Lemma processSimpleReceipt_rejected adapters input c w message :
  groqReply adapters input = Rejected message ->
  processSimpleReceipt adapters input c w =
  let this := recordAttempt (groqFailed message) (withSimpleCount (self w)) in
  let w1 := {| self := this; calls := calls w ++ [groqCall input] |} in
  if enableFallback (config (self w))
  then processComplexReceipt adapters input c
         {| self := withFallback this; calls := calls w1 |}
  else (Thrown message, w1).
Proof.
  unfold groqReply, processSimpleReceipt, tryCatch, extractRawText, bind, update, await,
    getThis, ret, throw.
  cbn. intros ->. cbn. rewrite config_recordAttempt. cbn.
  destruct (enableFallback (config (self w))); reflexivity.
Qed.

Lemma attempts_recordAttempt (a : OcrAttempt R) (this : HybridOcrStrategy.t R) :
  attempts (recordAttempt a this) = attempts this ++ recorded a this.
Proof.
  unfold recordAttempt, recorded.
  destruct (enableMetrics (config this)); cbn; [reflexivity | now rewrite app_nil_r].
Qed.

Lemma recordAttempt_disabled (a : OcrAttempt R) (this : HybridOcrStrategy.t R) :
  enableMetrics (config this) = false -> recordAttempt a this = this.
Proof. unfold recordAttempt. intros ->. reflexivity. Qed.

Lemma totalReceipts_recordAttempt (a : OcrAttempt R) (this : HybridOcrStrategy.t R) :
  totalReceipts (metrics (recordAttempt a this)) =
  (totalReceipts (metrics this) + List.length (recorded a this))%nat.
Proof.
  unfold recordAttempt, recorded.
  destruct (enableMetrics (config this)); cbn; lia.
Qed.

Lemma counts_recordAttempt (a : OcrAttempt R) (this : HybridOcrStrategy.t R) :
  simpleCount (metrics (recordAttempt a this)) = simpleCount (metrics this) /\
  complexCount (metrics (recordAttempt a this)) = complexCount (metrics this) /\
  claudeFallbackRate (metrics (recordAttempt a this)) = claudeFallbackRate (metrics this).
Proof.
  unfold recordAttempt. destruct (enableMetrics (config this)); cbn; auto.
Qed.

End RouterFacts.

(* ------------------------------------------------------------------ *)
(** ** Routing and fallback *)

Section Routing.

Context {R : Type} `{JsNumber R}.
Local Open Scope js_scope.

(** Push the projections through the updates a path made to the instance. *)
Ltac simpl_history :=
  repeat (rewrite ?attempts_recordAttempt, ?config_recordAttempt;
          unfold recorded, withComplexCount, withFallback, withSimpleCount;
          cbn [setMetrics setAttempts config attempts detector metrics]).

(** C1, with the metrics switch made explicit: when a request is routed to
    Groq, the Groq call is rejected, fallback is enabled and the Claude call
    resolves, the caller gets the Claude adapter's result after one call to
    each adapter, and, metrics being enabled, exactly two attempts are
    appended: the failed Groq one, then the successful Claude one, which
    carries the returned result. *)
Theorem fallback_appends_groq_failure_then_claude_success
    (adapters : Adapters R) (input : OcrInput) (w : World R)
    (message : string) (elapsed : nat) (r : OcrResult R) :
  routesToGroq (self w) input = true ->
  groqReply adapters input = Rejected message ->
  enableFallback (config (self w)) = true ->
  claudeReply adapters input = Resolved elapsed r ->
  fst (extractReceipt adapters input w) = Returned r /\
  calls (snd (extractReceipt adapters input w)) =
    calls w ++ [groqCall input; claudeCall input] /\
  (enableMetrics (config (self w)) = true ->
   attempts (self (snd (extractReceipt adapters input w))) =
     attempts (self w) ++ [groqFailed message; claudeSucceeded elapsed r]).
Proof.
  intros Hroute Hgroq Hfallback Hclaude.
  rewrite extractReceipt_route, Hroute.
  rewrite processSimpleReceipt_rejected with (message := message) by assumption.
  cbv zeta.
  rewrite Hfallback.
  rewrite processComplexReceipt_resolved with (elapsed := elapsed) (r := r) by assumption.
  cbn [fst snd self calls].
  split; [reflexivity|]. split.
  - now rewrite <- app_assoc.
  - intros Hmetrics. simpl_history. rewrite Hmetrics. now rewrite <- app_assoc.
Qed.

(** C5, with the metrics switch made explicit: when a request is routed to
    Groq, fallback is disabled and the Groq call is rejected, the request
    fails with the Groq error and the Claude adapter is not called; and,
    metrics being enabled, exactly one attempt, the failed Groq one, is
    appended. *)
Theorem no_fallback_surfaces_groq_error
    (adapters : Adapters R) (input : OcrInput) (w : World R) (message : string) :
  routesToGroq (self w) input = true ->
  enableFallback (config (self w)) = false ->
  groqReply adapters input = Rejected message ->
  fst (extractReceipt adapters input w) = Thrown message /\
  calls (snd (extractReceipt adapters input w)) = calls w ++ [groqCall input] /\
  (enableMetrics (config (self w)) = true ->
   attempts (self (snd (extractReceipt adapters input w))) =
     attempts (self w) ++ [groqFailed message]).
Proof.
  intros Hroute Hfallback Hgroq.
  rewrite extractReceipt_route, Hroute.
  rewrite processSimpleReceipt_rejected with (message := message) by assumption.
  cbv zeta.
  rewrite Hfallback. cbn [fst snd self calls].
  split; [reflexivity|]. split; [reflexivity|].
  intros Hmetrics. simpl_history. now rewrite Hmetrics.
Qed.

(** The two shapes the routing goals take once the new calls and attempts
    are known. *)
Ltac groq_path_case :=
  split; [reflexivity|]; split; [reflexivity|]; split;
  [ split; auto
  | let Hn := fresh in intros Hn; exfalso; apply Hn; auto ].

Ltac claude_path_case :=
  split; [reflexivity|]; split; [reflexivity|]; split;
  [ split; [discriminate | intros [? ?]; discriminate]
  | intros _; split; [reflexivity|] ].

(** C3: a request goes to the Groq path exactly when the verdict is simple
    and its confidence reaches the configured threshold, which the
    constructor sets to 0.85 unless told otherwise; in every other case the
    Claude adapter is the only one called and no Groq attempt is recorded. *)
Theorem extractReceipt_routes_on_verdict
    (adapters : Adapters R) (input : OcrInput) (w : World R) :
  let verdict := classify (detector (self w)) (ReceiptExtraction.imageBase64 input) in
  let threshold := simpleConfidenceThreshold (config (self w)) in
  let w' := snd (extractReceipt adapters input w) in
  (forall detector : SimpleReceiptDetector.t R,
     simpleConfidenceThreshold (config (new detector noOverrides)) = num_dec 85 100) /\
  exists newCalls newAttempts,
    calls w' = calls w ++ newCalls /\
    attempts (self w') = attempts (self w) ++ newAttempts /\
    (hd_error newCalls = Some (groqCall input) <->
     isSimple verdict = true /\ (confidence verdict >=? threshold) = true) /\
    (~ (isSimple verdict = true /\ (confidence verdict >=? threshold) = true) ->
     newCalls = [claudeCall input] /\
     Forall (fun a => provider a <> groq) newAttempts).
Proof.
  cbv zeta. split; [reflexivity|].
  rewrite extractReceipt_route. unfold routesToGroq.
  destruct (isSimple _) eqn:Hsimple;
    [destruct (_ >=? _) eqn:Hconf|]; cbn [andb].
  - (* the Groq path *)
    destruct (groqReply adapters input) as [elapsed r|message] eqn:Hgroq.
    + rewrite processSimpleReceipt_resolved with (elapsed := elapsed) (r := r) by assumption.
      exists [groqCall input], (recorded (groqSucceeded elapsed r) (withSimpleCount (self w))).
      cbn [snd self calls hd_error]. rewrite attempts_recordAttempt.
      groq_path_case.
    + rewrite processSimpleReceipt_rejected with (message := message) by assumption.
      cbv zeta. destruct (enableFallback (config (self w))).
      * destruct (claudeReply adapters input) as [elapsed r|message'] eqn:Hclaude.
        -- rewrite processComplexReceipt_resolved with (elapsed := elapsed) (r := r)
             by assumption.
           eexists [groqCall input; claudeCall input], (_ ++ _).
           cbn [snd self calls hd_error]. rewrite <- app_assoc.
           rewrite attempts_recordAttempt.
           cbn [withComplexCount withFallback setMetrics attempts].
           rewrite attempts_recordAttempt, <- app_assoc.
           groq_path_case.
        -- rewrite processComplexReceipt_rejected with (message := message')
             by assumption.
           eexists [groqCall input; claudeCall input], _.
           cbn [snd self calls hd_error]. rewrite <- app_assoc.
           cbn [withComplexCount withFallback setMetrics attempts].
           rewrite attempts_recordAttempt.
           groq_path_case.
      * eexists [groqCall input], _.
        cbn [snd self calls hd_error]. rewrite attempts_recordAttempt.
        groq_path_case.
  - (* simple, but the confidence is below the threshold *)
    destruct (claudeReply adapters input) as [elapsed r|message] eqn:Hclaude.
    + rewrite processComplexReceipt_resolved with (elapsed := elapsed) (r := r) by assumption.
      eexists [claudeCall input], _.
      cbn [snd self calls hd_error]. rewrite attempts_recordAttempt.
      claude_path_case.
      unfold recorded. destruct (enableMetrics _); repeat constructor; discriminate.
    + rewrite processComplexReceipt_rejected with (message := message) by assumption.
      exists [claudeCall input], [].
      cbn [snd self calls hd_error withComplexCount setMetrics attempts].
      rewrite app_nil_r.
      claude_path_case. constructor.
  - (* not simple *)
    destruct (claudeReply adapters input) as [elapsed r|message] eqn:Hclaude.
    + rewrite processComplexReceipt_resolved with (elapsed := elapsed) (r := r) by assumption.
      eexists [claudeCall input], _.
      cbn [snd self calls hd_error]. rewrite attempts_recordAttempt.
      claude_path_case.
      unfold recorded. destruct (enableMetrics _); repeat constructor; discriminate.
    + rewrite processComplexReceipt_rejected with (message := message) by assumption.
      exists [claudeCall input], [].
      cbn [snd self calls hd_error withComplexCount setMetrics attempts].
      rewrite app_nil_r.
      claude_path_case. constructor.
Qed.

(** How an invocation completes. A returned result is the one an adapter
    resolved with, and with metrics enabled it is carried by the last attempt
    of the history, a successful one. A thrown error is the rejection of the
    last adapter called: Claude's, or Groq's when fallback is disabled. *)
Lemma extractReceipt_completion (adapters : Adapters R) (input : OcrInput) (w : World R) :
  match fst (extractReceipt adapters input w) with
  | Returned r =>
      (exists elapsed,
         (routesToGroq (self w) input = true /\
          groqReply adapters input = Resolved elapsed r) \/
         claudeReply adapters input = Resolved elapsed r) /\
      (enableMetrics (config (self w)) = true ->
       exists older a,
         attempts (self (snd (extractReceipt adapters input w))) = older ++ [a] /\
         success a = true /\ result a = Some r)
  | Thrown message =>
      claudeReply adapters input = Rejected message \/
      (routesToGroq (self w) input = true /\
       enableFallback (config (self w)) = false /\
       groqReply adapters input = Rejected message)
  end.
Proof.
  rewrite extractReceipt_route.
  destruct (routesToGroq (self w) input) eqn:Hroute.
  - destruct (groqReply adapters input) as [elapsed r|message] eqn:Hgroq.
    + rewrite processSimpleReceipt_resolved with (elapsed := elapsed) (r := r) by assumption.
      cbn [fst snd self]. split; [exists elapsed; auto|].
      intros Hmetrics. exists (attempts (self w)), (groqSucceeded elapsed r).
      simpl_history. rewrite Hmetrics. auto.
    + rewrite processSimpleReceipt_rejected with (message := message) by assumption.
      cbv zeta. destruct (enableFallback (config (self w))) eqn:Hfallback.
      * destruct (claudeReply adapters input) as [elapsed r|message'] eqn:Hclaude.
        -- rewrite processComplexReceipt_resolved with (elapsed := elapsed) (r := r)
             by assumption.
           cbn [fst snd self]. split; [exists elapsed; auto|].
           intros Hmetrics.
           exists (attempts (self w) ++ [groqFailed message]), (claudeSucceeded elapsed r).
           simpl_history. rewrite Hmetrics. auto.
        -- rewrite processComplexReceipt_rejected with (message := message')
             by assumption.
           cbn [fst]. auto.
      * cbn [fst]. auto.
  - destruct (claudeReply adapters input) as [elapsed r|message] eqn:Hclaude.
    + rewrite processComplexReceipt_resolved with (elapsed := elapsed) (r := r) by assumption.
      cbn [fst snd self]. split; [exists elapsed; auto|].
      intros Hmetrics. exists (attempts (self w)), (claudeSucceeded elapsed r).
      simpl_history. rewrite Hmetrics. auto.
    + rewrite processComplexReceipt_rejected with (message := message) by assumption.
      cbn [fst]. auto.
Qed.

(** A rejected Claude call, reached directly, leaves the history and
    [totalReceipts] as they were, whatever the configuration. *)
Lemma claude_rejection_leaves_history
    (adapters : Adapters R) (input : OcrInput) (w : World R) (message : string) :
  routesToGroq (self w) input = false ->
  claudeReply adapters input = Rejected message ->
  fst (extractReceipt adapters input w) = Thrown message /\
  attempts (self (snd (extractReceipt adapters input w))) = attempts (self w) /\
  totalReceipts (metrics (self (snd (extractReceipt adapters input w)))) =
    totalReceipts (metrics (self w)) /\
  complexCount (metrics (self (snd (extractReceipt adapters input w)))) =
    S (complexCount (metrics (self w))).
Proof.
  intros Hroute Hclaude. rewrite extractReceipt_route, Hroute.
  rewrite processComplexReceipt_rejected with (message := message) by assumption.
  repeat split.
Qed.

(** The adapter calls of one invocation, in order: Groq's when the request
    is routed to Groq, then Claude's when the Claude path runs. *)
Lemma calls_of_extractReceipt (adapters : Adapters R) (input : OcrInput) (w : World R) :
  calls (snd (extractReceipt adapters input w)) =
  calls w ++
  (if routesToGroq (self w) input then [groqCall input] else []) ++
  (if preciseRuns adapters (self w) input then [claudeCall input] else []).
Proof.
  rewrite extractReceipt_route. unfold preciseRuns.
  destruct (routesToGroq (self w) input).
  - destruct (groqReply adapters input) as [elapsed r|message] eqn:Hgroq.
    + rewrite processSimpleReceipt_resolved with (elapsed := elapsed) (r := r) by assumption.
      reflexivity.
    + rewrite processSimpleReceipt_rejected with (message := message) by assumption.
      cbv zeta. destruct (enableFallback (config (self w))); [|reflexivity].
      destruct (claudeReply adapters input) as [elapsed r|message'] eqn:Hclaude.
      * rewrite processComplexReceipt_resolved with (elapsed := elapsed) (r := r)
          by assumption.
        cbn [snd calls]. now rewrite <- app_assoc.
      * rewrite processComplexReceipt_rejected with (message := message') by assumption.
        cbn [snd calls]. now rewrite <- app_assoc.
  - destruct (claudeReply adapters input) as [elapsed r|message] eqn:Hclaude.
    + rewrite processComplexReceipt_resolved with (elapsed := elapsed) (r := r) by assumption.
      reflexivity.
    + rewrite processComplexReceipt_rejected with (message := message) by assumption.
      reflexivity.
Qed.

End Routing.



(* ------------------------------------------------------------------ *)
(** ** The paths on concrete requests, in binary64 *)

(** The demo receipts take the routes the recipe announces. *)
Lemma sevenEleven_routes_to_groq :
  routesToGroq (self (fresh (R:=float) newByName noOverrides)) sevenEleven = true.
Proof. vm_compute. reflexivity. Qed.

Lemma restaurant_routes_to_claude :
  routesToGroq (self (fresh (R:=float) newByName noOverrides)) restaurant = false.
Proof. vm_compute. reflexivity. Qed.

(** The fallback on the 7-Eleven demo receipt, default configuration, Groq
    rejecting. *)
Lemma fallback_appends_groq_failure_then_claude_success_witness :
  let done := extractReceipt (R:=float) groqDown sevenEleven (fresh newByName noOverrides) in
  fst done = Returned claudeResult /\
  calls (snd done) = [groqCall sevenEleven; claudeCall sevenEleven] /\
  attempts (self (snd done)) =
    [groqFailed groqError; claudeSucceeded 1200 claudeResult].
Proof.
  destruct (@fallback_appends_groq_failure_then_claude_success float _
              groqDown sevenEleven (fresh newByName noOverrides) groqError 1200 claudeResult)
    as (Hresult & Hcalls & Hattempts).
  - exact sevenEleven_routes_to_groq.
  - reflexivity.
  - reflexivity.
  - reflexivity.
  - split; [exact Hresult|]. split; [exact Hcalls|].
    apply Hattempts. reflexivity.
Defined.

(** With [enableMetrics: false] the same fallback appends nothing: the
    hypotheses of C1 hold and the history stays empty. *)
Lemma fallback_with_metrics_off_appends_nothing :
  let w := fresh (R:=float) newByName metricsOff in
  let done := extractReceipt groqDown sevenEleven w in
  routesToGroq (self w) sevenEleven = true /\
  groqReply groqDown sevenEleven = Rejected groqError /\
  enableFallback (config (self w)) = true /\
  claudeReply groqDown sevenEleven = Resolved 1200 claudeResult /\
  fst done = Returned claudeResult /\
  attempts (self w) = [] /\
  attempts (self (snd done)) = [].
Proof.
  cbv zeta. repeat split; vm_compute; reflexivity.
Qed.

(** The same request with [enableFallback: false]. *)
Lemma no_fallback_surfaces_groq_error_witness :
  let done := extractReceipt (R:=float) groqDown sevenEleven (fresh newByName fallbackOff) in
  fst done = Thrown groqError /\
  calls (snd done) = [groqCall sevenEleven] /\
  attempts (self (snd done)) = [groqFailed groqError].
Proof.
  destruct (@no_fallback_surfaces_groq_error float _
              groqDown sevenEleven (fresh newByName fallbackOff) groqError)
    as (Herror & Hcalls & Hattempts).
  - vm_compute. reflexivity.
  - reflexivity.
  - reflexivity.
  - split; [exact Herror|]. split; [exact Hcalls|].
    apply Hattempts. reflexivity.
Defined.

(** With [enableMetrics: false] and [enableFallback: false] a rejected Groq
    call fails the request and records no attempt at all: the hypotheses of
    C5 hold and the history stays empty. *)
Lemma groq_failure_with_metrics_off_records_nothing :
  let w := fresh (R:=float) newByName fallbackOffMetricsOff in
  let done := extractReceipt groqDown sevenEleven w in
  routesToGroq (self w) sevenEleven = true /\
  enableFallback (config (self w)) = false /\
  groqReply groqDown sevenEleven = Rejected groqError /\
  fst done = Thrown groqError /\
  attempts (self w) = [] /\
  attempts (self (snd done)) = [].
Proof.
  cbv zeta. repeat split; vm_compute; reflexivity.
Qed.

(** C2 at its failing input: with the default configuration, a request
    routed directly to Claude whose Claude call is rejected throws the Claude
    error and leaves the history empty and [totalReceipts] at 0; and when the
    fallback itself is rejected, one attempt is recorded, not two. *)
Theorem claude_rejection_records_no_attempt :
  let direct := extractReceipt (R:=float) claudeDown restaurant (fresh newByName noOverrides) in
  let viaFallback := extractReceipt (R:=float) bothDown sevenEleven (fresh newByName noOverrides) in
  (routesToGroq (self (fresh (R:=float) newByName noOverrides)) restaurant = false /\
   fst direct = Thrown claudeError /\
   calls (snd direct) = [claudeCall restaurant] /\
   attempts (self (snd direct)) = [] /\
   totalReceipts (metrics (self (snd direct))) = 0 /\
   complexCount (metrics (self (snd direct))) = 1) /\
  (routesToGroq (self (fresh (R:=float) newByName noOverrides)) sevenEleven = true /\
   fst viaFallback = Thrown claudeError /\
   calls (snd viaFallback) = [groqCall sevenEleven; claudeCall sevenEleven] /\
   attempts (self (snd viaFallback)) = [groqFailed groqError]).
Proof.
  cbv zeta. split.
  - rewrite extractReceipt_route, restaurant_routes_to_claude.
    rewrite processComplexReceipt_rejected with (message := claudeError) by reflexivity.
    repeat split.
  - rewrite extractReceipt_route, sevenEleven_routes_to_groq.
    rewrite processSimpleReceipt_rejected with (message := groqError) by reflexivity.
    cbv zeta. change (enableFallback (config (self (fresh newByName noOverrides)))) with true.
    cbv iota.
    rewrite processComplexReceipt_rejected with (message := claudeError) by reflexivity.
    repeat split.
Qed.

(** C4 at its failing inputs: with the default configuration, one request
    served through the fallback leaves [totalReceipts] at 2, and one request
    whose direct Claude call is rejected leaves [complexCount] at 1 with
    [totalReceipts] at 0. *)
Theorem fallback_counts_one_request_twice :
  let afterFallback :=
    invocations (R:=float) [(groqDown, sevenEleven)] (fresh newByName noOverrides) in
  let afterRejection :=
    invocations (R:=float) [(claudeDown, restaurant)] (fresh newByName noOverrides) in
  (totalReceipts (metrics (self afterFallback)) = 2 /\
   simpleCount (metrics (self afterFallback)) = 1 /\
   complexCount (metrics (self afterFallback)) = 1 /\
   claudeFallbackRate (metrics (self afterFallback)) = 1 /\
   List.length (attempts (self afterFallback)) = 2) /\
  (totalReceipts (metrics (self afterRejection)) = 0 /\
   simpleCount (metrics (self afterRejection)) = 0 /\
   complexCount (metrics (self afterRejection)) = 1).
Proof.
  cbv zeta. unfold invocations.
  split.
  - rewrite extractReceipt_route, sevenEleven_routes_to_groq.
    rewrite processSimpleReceipt_rejected with (message := groqError) by reflexivity.
    cbv zeta. change (enableFallback (config (self (fresh newByName noOverrides)))) with true.
    cbv iota.
    rewrite processComplexReceipt_resolved with (elapsed := 1200) (r := claudeResult)
      by reflexivity.
    repeat split.
  - rewrite extractReceipt_route, restaurant_routes_to_claude.
    rewrite processComplexReceipt_rejected with (message := claudeError) by reflexivity.
    repeat split.
Qed.

(** *** The same paths with the copy of the detector that reads the size

    The long scan goes to Groq under either copy and the restaurant receipt
    to Claude, so the outcomes above are those of either copy. *)
Lemma routes_under_both_copies :
  routesToGroq (self (fresh (R:=float) newByName noOverrides)) sevenElevenScan = true /\
  routesToGroq (self (fresh (R:=float) newBySize noOverrides)) sevenElevenScan = true /\
  routesToGroq (self (fresh (R:=float) newByName noOverrides)) restaurant = false /\
  routesToGroq (self (fresh (R:=float) newBySize noOverrides)) restaurant = false.
Proof. repeat split; vm_compute; reflexivity. Qed.

Lemma size_copy_outcomes :
  let off := extractReceipt (R:=float) groqDown sevenElevenScan
               (fresh newBySize metricsOff) in
  let offBoth := extractReceipt (R:=float) groqDown sevenElevenScan
                   (fresh newBySize fallbackOffMetricsOff) in
  let direct := extractReceipt (R:=float) claudeDown restaurant
                  (fresh newBySize noOverrides) in
  let fallback := extractReceipt (R:=float) groqDown sevenElevenScan
                    (fresh newBySize noOverrides) in
  (fst off = Returned claudeResult /\ attempts (self (snd off)) = []) /\
  (fst offBoth = Thrown groqError /\ attempts (self (snd offBoth)) = []) /\
  (fst direct = Thrown claudeError /\ attempts (self (snd direct)) = [] /\
   complexCount (metrics (self (snd direct))) = 1) /\
  (fst fallback = Returned claudeResult /\
   totalReceipts (metrics (self (snd fallback))) = 2).
Proof. cbv zeta. repeat split; vm_compute; reflexivity. Qed.

(* ------------------------------------------------------------------ *)
(** ** Metrics *)

Section Metrics.

Context {R : Type} `{JsNumber R}.
Local Open Scope js_scope.

Lemma sameLedger_refl (a : HybridOcrStrategy.t R) : sameLedger a a.
Proof. repeat split. Qed.

Lemma sameLedger_trans (a b c : HybridOcrStrategy.t R) :
  sameLedger a b -> sameLedger b c -> sameLedger a c.
Proof.
  unfold sameLedger. intros Hab Hbc.
  decompose [and] Hab. decompose [and] Hbc. repeat split; congruence.
Qed.

(** The guards of [updateMetrics]: no Groq attempt gives a success rate of 0,
    and no recorded receipt gives an average cost and a review rate of 0. *)
Lemma updateMetrics_guards (this : HybridOcrStrategy.t R) :
  (filter (fun a => isGroq (provider a)) (attempts this) = [] ->
   groqSuccessRate (metrics (updateMetrics this)) = num_dec 0 1) /\
  (totalReceipts (metrics this) = 0 ->
   avgCostPerReceipt (metrics (updateMetrics this)) = num_dec 0 1 /\
   manualReviewRate (metrics (updateMetrics this)) = num_dec 0 1).
Proof.
  unfold updateMetrics. cbn [setMetrics metrics groqSuccessRate avgCostPerReceipt
                             manualReviewRate].
  split.
  - intros ->. reflexivity.
  - intros ->. split; reflexivity.
Qed.

(** One invocation with metrics disabled: nothing [recordAttempt] writes
    changes, and the two route counters still move. *)
Lemma extractReceipt_metrics_disabled
    (adapters : Adapters R) (input : OcrInput) (w : World R) :
  enableMetrics (config (self w)) = false ->
  let w' := snd (extractReceipt adapters input w) in
  sameLedger (self w) (self w') /\
  simpleCount (metrics (self w')) =
    (simpleCount (metrics (self w)) + if routesToGroq (self w) input then 1 else 0)%nat /\
  complexCount (metrics (self w')) =
    (complexCount (metrics (self w)) +
     if preciseRuns adapters (self w) input then 1 else 0)%nat.
Proof.
  intros Hoff. cbv zeta. rewrite extractReceipt_route. unfold preciseRuns.
  destruct (routesToGroq (self w) input).
  - destruct (groqReply adapters input) as [elapsed r|message] eqn:Hgroq.
    + rewrite processSimpleReceipt_resolved with (elapsed := elapsed) (r := r) by assumption.
      cbn [snd self]. rewrite recordAttempt_disabled by exact Hoff.
      cbn. repeat split; lia.
    + rewrite processSimpleReceipt_rejected with (message := message) by assumption.
      cbv zeta. rewrite recordAttempt_disabled by exact Hoff.
      destruct (enableFallback (config (self w))).
      * destruct (claudeReply adapters input) as [elapsed r|message'] eqn:Hclaude.
        -- rewrite processComplexReceipt_resolved with (elapsed := elapsed) (r := r)
             by assumption.
           cbn [snd self]. rewrite recordAttempt_disabled by exact Hoff.
           cbn. repeat split; lia.
        -- rewrite processComplexReceipt_rejected with (message := message')
             by assumption.
           cbn. repeat split; lia.
      * cbn. repeat split; lia.
  - destruct (claudeReply adapters input) as [elapsed r|message] eqn:Hclaude.
    + rewrite processComplexReceipt_resolved with (elapsed := elapsed) (r := r) by assumption.
      cbn [snd self]. rewrite recordAttempt_disabled by exact Hoff.
      cbn. repeat split; lia.
    + rewrite processComplexReceipt_rejected with (message := message) by assumption.
      cbn. repeat split; lia.
Qed.

(** Any number of invocations with metrics disabled. *)
Lemma invocations_metrics_disabled (requests : list (Adapters R * OcrInput)) :
  forall w : World R,
  enableMetrics (config (self w)) = false ->
  sameLedger (self w) (self (invocations requests w)).
Proof.
  induction requests as [|[adapters input] rest IH]; intros w Hoff; cbn [invocations].
  - apply sameLedger_refl.
  - destruct (extractReceipt_metrics_disabled adapters input w Hoff) as (Hstep & _).
    eapply sameLedger_trans; [exact Hstep|].
    apply IH. destruct Hstep as (Hconfig & _). now rewrite <- Hconfig.
Qed.

End Metrics.

(** The literal [0] of binary64 is the number zero, not [NaN]. *)
Lemma float_zero_literal :
  num_dec (R:=float) 0 1 = 0%float /\ PrimFloat.is_nan (num_dec (R:=float) 0 1) = false.
Proof. split; reflexivity. Qed.

(** C9: the snapshot of a router just constructed, or just reset, has the
    three rates at 0; and recomputing the rates on the reset state, where
    every total is 0, still yields 0, each division being guarded. *)
Theorem fresh_snapshot_rates_are_zero {R : Type} `{JsNumber R}
    (detector : SimpleReceiptDetector.t R) (config : PartialConfig R)
    (this : HybridOcrStrategy.t R) :
  let zero := num_dec 0 1 in
  rates (getMetrics (new detector config)) = (zero, zero, zero) /\
  rates (getMetrics (resetMetrics this)) = (zero, zero, zero) /\
  totalReceipts (getMetrics (resetMetrics this)) = 0 /\
  getAttempts (resetMetrics this) = [] /\
  rates (getMetrics (updateMetrics (new detector config))) = (zero, zero, zero) /\
  rates (getMetrics (updateMetrics (resetMetrics this))) = (zero, zero, zero).
Proof.
  cbv zeta. unfold rates, getMetrics, getAttempts.
  split; [reflexivity|]. split; [reflexivity|].
  split; [reflexivity|]. split; [reflexivity|].
  split.
  - destruct (updateMetrics_guards (new detector config)) as (Hgroq & Htotal).
    rewrite Hgroq by reflexivity.
    destruct Htotal as (-> & ->); reflexivity.
  - destruct (updateMetrics_guards (resetMetrics this)) as (Hgroq & Htotal).
    rewrite Hgroq by reflexivity.
    destruct Htotal as (-> & ->); reflexivity.
Qed.

(** C10: on a router constructed with [enableMetrics: false], after any
    earlier invocations, one more invocation leaves the history empty and
    [totalReceipts], [totalCost] and the derived values at 0, while
    [simpleCount] moves when the request is routed to Groq and [complexCount]
    when the Claude path runs; so the two counters sum to more than
    [totalReceipts]. *)
Theorem metrics_disabled_counts_without_recording {R : Type} `{JsNumber R}
    (detector : SimpleReceiptDetector.t R) (config : PartialConfig R)
    (requests : list (Adapters R * OcrInput))
    (adapters : Adapters R) (input : OcrInput) :
  enableMetrics_opt config = Some false ->
  let zero := num_dec 0 1 in
  let w := invocations requests (fresh detector config) in
  let w' := snd (extractReceipt adapters input w) in
  let m' := getMetrics (self w') in
  getAttempts (self w') = [] /\
  totalReceipts m' = 0 /\
  totalCost m' = zero /\
  groqSuccessRate m' = zero /\
  avgCostPerReceipt m' = zero /\
  savingsVsClaudeOnly m' = zero /\
  manualReviewRate m' = zero /\
  simpleCount m' =
    simpleCount (metrics (self w)) + (if routesToGroq (self w) input then 1 else 0) /\
  complexCount m' =
    complexCount (metrics (self w)) +
    (if preciseRuns adapters (self w) input then 1 else 0) /\
  totalReceipts m' < simpleCount m' + complexCount m'.
Proof.
  intros Hcfg. cbv zeta. unfold getAttempts, getMetrics.
  assert (Hoff0 : enableMetrics (HybridOcrStrategy.config (self (fresh detector config))) = false).
  { cbn. now rewrite Hcfg. }
  pose proof (invocations_metrics_disabled requests (fresh detector config) Hoff0) as Hseq.
  set (w := invocations requests (fresh detector config)) in *.
  assert (Hoff : enableMetrics (HybridOcrStrategy.config (self w)) = false).
  { destruct Hseq as (Hc & _). now rewrite <- Hc. }
  destruct (extractReceipt_metrics_disabled adapters input w Hoff)
    as (Hstep & Hsimple & Hcomplex).
  pose proof (sameLedger_trans Hseq Hstep) as Hall.
  destruct Hall as (_ & _ & Ha & Hn & Hc & Hg & Hv & Hs & Hm).
  rewrite <- Ha, <- Hn, <- Hc, <- Hg, <- Hv, <- Hs, <- Hm.
  repeat (split; [reflexivity || assumption|]).
  rewrite Hsimple, Hcomplex. unfold preciseRuns.
  change (totalReceipts (metrics (self (fresh detector config)))) with 0.
  destruct (routesToGroq (self w) input); lia.
Qed.

(** Two demo receipts served with [enableMetrics: false]: one by Groq, one by
    Claude, and nothing recorded. *)
Lemma metrics_disabled_counts_without_recording_witness :
  let w := invocations (R:=float) [(bothUp, sevenEleven)] (fresh newByName metricsOff) in
  let w' := snd (extractReceipt bothUp restaurant w) in
  getAttempts (self w') = [] /\
  totalReceipts (getMetrics (self w')) = 0 /\
  simpleCount (getMetrics (self w')) = 1 /\
  complexCount (getMetrics (self w')) = 1.
Proof.
  cbv zeta.
  destruct (@metrics_disabled_counts_without_recording float _ newByName metricsOff
              [(bothUp, sevenEleven)] bothUp restaurant eq_refl)
    as (Ha & Hn & _ & _ & _ & _ & _ & Hs & Hc & _).
  split; [exact Ha|]. split; [exact Hn|].
  split; [rewrite Hs | rewrite Hc]; vm_compute; reflexivity.
Defined.

(* ------------------------------------------------------------------ *)
(** ** The classifier *)

(** Comparison and [Math.min] of the exact instance, as order facts. *)
Lemma Q_gtb_iff (a b : Q) : num_ltb b a = true <-> (b < a)%Q.
Proof.
  cbn. rewrite negb_true_iff. split.
  - intros Hle. apply Qnot_le_lt. intros Hab.
    apply Qle_bool_iff in Hab. congruence.
  - intros Hlt. destruct (Qle_bool a b) eqn:Hle; [|reflexivity].
    apply Qle_bool_iff in Hle. exfalso. exact (Qlt_not_le _ _ Hlt Hle).
Qed.

Lemma Q_min_is_Qmin (a b : Q) : (num_min a b == Qmin a b)%Q.
Proof.
  cbn. destruct (Qle_bool a b) eqn:Hle.
  - apply Qle_bool_iff in Hle. symmetry. now apply Q.min_l.
  - symmetry. apply Q.min_r. apply Qlt_le_weak, Qnot_le_lt.
    intros Hab. apply Qle_bool_iff in Hab. congruence.
Qed.

(** The confidence of the source over exact numbers, for any features: the
    weighted sum times the penalties, capped at 1. *)
Lemma calculateConfidence_capped (f : Features Q) :
  (calculateConfidence (Some f) == Qmin (spec_weightedSum f * spec_penalty f) 1)%Q.
Proof.
  unfold calculateConfidence. cbv zeta. rewrite Q_min_is_Qmin.
  apply Q.min_compat; [|reflexivity].
  unfold spec_weightedSum, spec_penalty. cbn [num_add num_mul num_dec Q_JsNumber].
  destruct (hasStandardFormat f), (hasHandwriting f), (hasFading f); ring.
Qed.

Lemma spec_weighted_penalised_nonneg (f : Features Q) :
  (0 <= brightness f)%Q -> (0 <= textDensity f)%Q ->
  (0 <= spec_weightedSum f * spec_penalty f)%Q.
Proof.
  intros Hb Ht. unfold spec_weightedSum, spec_penalty.
  destruct (hasStandardFormat f), (hasHandwriting f), (hasFading f); lra.
Qed.

(** C6: for a feature snapshot whose brightness and text density are not
    negative, the confidence is the weighted sum 0.4, 0.3, 0.3, times 0.5
    under handwriting and times 0.7 under fading, clamped to [0,1]; and the
    verdict of [classify] carries that confidence. *)
Theorem confidence_is_clamped_weighted_sum (f : Features Q) :
  (0 <= brightness f)%Q ->
  (0 <= textDensity f)%Q ->
  (calculateConfidence (Some f) == spec_confidence f)%Q /\
  (0 <= calculateConfidence (Some f) <= 1)%Q /\
  (forall (this : SimpleReceiptDetector.t Q) (image : string),
     confidence (classify this image) =
     calculateConfidence (Some (extractFeatures this image))).
Proof.
  intros Hb Ht.
  pose proof (spec_weighted_penalised_nonneg f Hb Ht) as Hnonneg.
  pose proof (calculateConfidence_capped f) as Hcap.
  assert (Hmin : (0 <= Qmin (spec_weightedSum f * spec_penalty f) 1)%Q).
  { apply Q.min_glb; [exact Hnonneg | lra]. }
  split; [|split].
  - rewrite Hcap. unfold spec_confidence, spec_clamp01.
    symmetry. now apply Q.max_r.
  - rewrite Hcap. split; [exact Hmin | apply Q.le_min_r].
  - reflexivity.
Qed.

(** The snapshot of scenario A. *)
Lemma confidence_is_clamped_weighted_sum_witness :
  (calculateConfidence (Some (scenarioA (R:=Q))) == spec_confidence scenarioA)%Q /\
  (0 <= calculateConfidence (Some (scenarioA (R:=Q))) <= 1)%Q.
Proof.
  destruct (confidence_is_clamped_weighted_sum (scenarioA (R:=Q)))
    as (Heq & Hrange & _).
  - cbn. lra.
  - cbn. lra.
  - exact (conj Heq Hrange).
Defined.

(** C7: the verdict is simple exactly when the brightness exceeds the
    configured threshold, the layout is a standard one, and neither the
    handwriting nor the fading flag is set; with the default configuration,
    which both copies of the detector are built with, the threshold is 0.6. *)
Theorem isSimple_iff_bright_standard_unmarked :
  (forall (R : Type) (N : JsNumber R) (config : Config R) (f : Features R),
     evaluateSimplicity config (Some f) = true <->
     num_ltb (brightnessThreshold config) (brightness f) = true /\
     hasStandardFormat f = true /\
     hasHandwriting f = false /\
     hasFading f = false) /\
  (forall (R : Type) (N : JsNumber R) (this : SimpleReceiptDetector.t R) (image : string),
     isSimple (classify this image) =
     evaluateSimplicity (SimpleReceiptDetector.config this)
       (Some (extractFeatures this image))) /\
  (forall f : Features Q,
     evaluateSimplicity defaultConfig (Some f) = true <->
     (6 # 10 < brightness f)%Q /\
     hasStandardFormat f = true /\
     hasHandwriting f = false /\
     hasFading f = false) /\
  SimpleReceiptDetector.config (newByName (R:=Q)) = defaultConfig /\
  SimpleReceiptDetector.config (newBySize (R:=Q)) = defaultConfig.
Proof.
  assert (Hgen : forall (R : Type) (N : JsNumber R) (config : Config R) (f : Features R),
     evaluateSimplicity config (Some f) = true <->
     num_ltb (brightnessThreshold config) (brightness f) = true /\
     hasStandardFormat f = true /\
     hasHandwriting f = false /\
     hasFading f = false).
  { intros R N config f. unfold evaluateSimplicity.
    rewrite !andb_true_iff, !negb_true_iff. tauto. }
  split; [exact Hgen|]. split; [reflexivity|]. split; [|split; reflexivity].
  intros f. rewrite Hgen.
  change (brightnessThreshold defaultConfig) with (6 # 10)%Q.
  now rewrite Q_gtb_iff.
Qed.

(** C8, with the sum computed: an input whose feature snapshot is that of
    scenario A is classified simple by a detector with the default
    configuration, and its confidence is the weighted sum
    0.85*0.4 + 0.7*0.3 + 1*0.3, which is 0.85 over exact numbers and
    0x1.b333333333334p-1, one unit in the last place above the literal 0.85,
    in binary64; in both it reaches 0.85. *)
Theorem scenarioA_is_simple_with_confidence_085 :
  (forall (this : SimpleReceiptDetector.t Q) (image : string),
     SimpleReceiptDetector.config this = defaultConfig ->
     extractFeatures this image = scenarioA ->
     isSimple (classify this image) = true /\
     (confidence (classify this image) ==
      (85 # 100) * (4 # 10) + (7 # 10) * (3 # 10) + 1 * (3 # 10))%Q /\
     (confidence (classify this image) == 85 # 100)%Q /\
     (85 # 100 <= confidence (classify this image))%Q) /\
  (forall (this : SimpleReceiptDetector.t float) (image : string),
     SimpleReceiptDetector.config this = defaultConfig ->
     extractFeatures this image = scenarioA ->
     isSimple (classify this image) = true /\
     confidence (classify this image) = 0x1.b333333333334p-1%float /\
     num_leb (num_dec 85 100) (confidence (classify this image)) = true).
Proof.
  split; intros this image Hconfig Hfeatures; unfold classify; cbv zeta;
    cbn [isSimple confidence]; rewrite !Hconfig, !Hfeatures.
  - split; [reflexivity|]. repeat split; vm_compute; try reflexivity; discriminate.
  - repeat split; vm_compute; reflexivity.
Qed.

(** The 7-Eleven demo image, in binary64. *)
Lemma scenarioA_is_simple_with_confidence_085_witness :
  extractFeatures (newByName (R:=float)) "mock-7eleven-receipt" = scenarioA /\
  isSimple (classify (newByName (R:=float)) "mock-7eleven-receipt") = true /\
  num_leb (num_dec 85 100)
    (confidence (classify (newByName (R:=float)) "mock-7eleven-receipt")) = true.
Proof.
  assert (Hfeatures :
    extractFeatures (newByName (R:=float)) "mock-7eleven-receipt" = scenarioA)
    by (vm_compute; reflexivity).
  destruct scenarioA_is_simple_with_confidence_085 as (_ & Hfloat).
  destruct (Hfloat newByName "mock-7eleven-receipt"%string eq_refl Hfeatures)
    as (Hsimple & _ & Hreach).
  exact (conj Hfeatures (conj Hsimple Hreach)).
Defined.

(** The demo image of the 7-Eleven receipt has the features of scenario A in
    the copy that reads the mock name, and so has an image of 85000
    characters in the copy that reads the size (in binary64, where 85000 /
    100000 is the literal 0.85); the confidence of either is not 0.95. And
    the snapshot alone does not make the verdict simple: a detector built
    with [brightnessThreshold] 0.9 derives the same snapshot from the demo
    image and calls it complex, over exact numbers and in binary64. *)
Lemma scenarioA_is_not_095_nor_simple_under_threshold_09 :
  (extractFeatures (newByName (R:=Q)) "mock-7eleven-receipt" = scenarioA /\
   ~ (confidence (classify (newByName (R:=Q)) "mock-7eleven-receipt") == 95 # 100)%Q) /\
  (extractFeatures (newByName (R:=float)) "mock-7eleven-receipt" = scenarioA /\
   PrimFloat.eqb
     (confidence (classify (newByName (R:=float)) "mock-7eleven-receipt"))
     (num_dec 95 100) = false) /\
  (extractFeatures (newBySize (R:=float)) (padding (850 * 100)) = scenarioA /\
   PrimFloat.eqb
     (confidence (classify (newBySize (R:=float)) (padding (850 * 100))))
     (num_dec 95 100) = false) /\
  (extractFeatures (strictByName (R:=Q)) "mock-7eleven-receipt" = scenarioA /\
   isSimple (classify (strictByName (R:=Q)) "mock-7eleven-receipt") = false) /\
  (extractFeatures (strictByName (R:=float)) "mock-7eleven-receipt" = scenarioA /\
   isSimple (classify (strictByName (R:=float)) "mock-7eleven-receipt") = false).
Proof.
  split; [|split; [|split; [|split]]]; split;
    try (vm_compute; reflexivity); vm_compute; discriminate.
Qed.

(** *** Binary64 and exact numbers on the mock images

    The copy that reads the mock name looks at four substring tests only, so
    its verdicts can be enumerated, over both number instances. *)

Ltac by_image_name image :=
  unfold classify, newByName, extractFeaturesByName; cbv zeta;
  cbn [extractFeatures SimpleReceiptDetector.config];
  generalize (imageNameOf image); intros name;
  destruct (JsString.includes name "7eleven"),
           (JsString.includes name "tesco"),
           (JsString.includes name "handwritten"),
           (JsString.includes name "faded");
  vm_compute; repeat split; congruence.

(** In binary64 the confidence of every image lies in the unit interval. *)
Lemma classify_binary64_confidence_in_unit_interval (image : string) :
  let c := confidence (classify (newByName (R:=float)) image) in
  PrimFloat.leb 0 c = true /\ PrimFloat.leb c 1 = true.
Proof. by_image_name image. Qed.

(** The two number instances give every image the same simplicity verdict
    and the same answer to the test of its confidence against 0.85. *)
Lemma classify_binary64_agrees_with_exact (image : string) :
  isSimple (classify (newByName (R:=float)) image) =
  isSimple (classify (newByName (R:=Q)) image) /\
  num_leb (num_dec 85 100) (confidence (classify (newByName (R:=float)) image)) =
  num_leb (num_dec 85 100) (confidence (classify (newByName (R:=Q)) image)).
Proof. by_image_name image. Qed.

(* ------------------------------------------------------------------ *)
(** ** The bookkeeping of one invocation, in closed form *)

Section Bookkeeping.

Context {R : Type} `{JsNumber R}.
Local Open Scope js_scope.

(** The instance one invocation leaves, read off the two paths: the counter
    of the route, the attempt of each adapter call that is recorded, and the
    fallback counter between the two. *)
Definition afterRequest (adapters : Adapters R) (input : OcrInput)
    (this : HybridOcrStrategy.t R) : HybridOcrStrategy.t R :=
  if routesToGroq this input then
    match groqReply adapters input with
    | Resolved elapsed r => recordAttempt (groqSucceeded elapsed r) (withSimpleCount this)
    | Rejected message =>
        let failed := recordAttempt (groqFailed message) (withSimpleCount this) in
        if enableFallback (config this) then
          match claudeReply adapters input with
          | Resolved elapsed r =>
              recordAttempt (claudeSucceeded elapsed r)
                (withComplexCount (withFallback failed))
          | Rejected _ => withComplexCount (withFallback failed)
          end
        else failed
    end
  else
    match claudeReply adapters input with
    | Resolved elapsed r => recordAttempt (claudeSucceeded elapsed r) (withComplexCount this)
    | Rejected _ => withComplexCount this
    end.

(** The attempts one invocation hands to [recordAttempt], in order. *)
Definition handedOver (adapters : Adapters R) (input : OcrInput)
    (this : HybridOcrStrategy.t R) : list (OcrAttempt R) :=
  if routesToGroq this input then
    match groqReply adapters input with
    | Resolved elapsed r => [groqSucceeded elapsed r]
    | Rejected message =>
        groqFailed message ::
        (if enableFallback (config this) then
           match claudeReply adapters input with
           | Resolved elapsed r => [claudeSucceeded elapsed r]
           | Rejected _ => []
           end
         else [])
    end
  else
    match claudeReply adapters input with
    | Resolved elapsed r => [claudeSucceeded elapsed r]
    | Rejected _ => []
    end.

(** Whether an invocation falls back from Groq to Claude. *)
Definition fallsBack (adapters : Adapters R) (input : OcrInput)
    (this : HybridOcrStrategy.t R) : bool :=
  routesToGroq this input &&
  match groqReply adapters input with
  | Resolved _ _ => false
  | Rejected _ => enableFallback (config this)
  end.

(** The attempts the source can record: a Groq success at 0.05, a Groq
    failure at no cost, a Claude success at 0.50. *)
Inductive Emitted : OcrAttempt R -> Prop :=
| EmittedGroqSuccess (elapsed : nat) (r : OcrResult R) : Emitted (groqSucceeded elapsed r)
| EmittedGroqFailure (message : string) : Emitted (groqFailed message)
| EmittedClaudeSuccess (elapsed : nat) (r : OcrResult R) : Emitted (claudeSucceeded elapsed r).

(** [this.config.maxGroqRetries = n] *)
Definition setMaxGroqRetries (n : nat) (this : HybridOcrStrategy.t R) : HybridOcrStrategy.t R :=
  {| detector := detector this;
     config := {| simpleConfidenceThreshold := simpleConfidenceThreshold (config this);
                  enableFallback := enableFallback (config this);
                  maxGroqRetries := n;
                  enableMetrics := enableMetrics (config this) |};
     metrics := metrics this;
     attempts := attempts this |}.

Lemma self_of_extractReceipt (adapters : Adapters R) (input : OcrInput) (w : World R) :
  self (snd (extractReceipt adapters input w)) = afterRequest adapters input (self w).
Proof.
  rewrite extractReceipt_route. unfold afterRequest.
  destruct (routesToGroq (self w) input).
  - destruct (groqReply adapters input) as [elapsed r|message] eqn:Hgroq.
    + now rewrite processSimpleReceipt_resolved with (elapsed := elapsed) (r := r).
    + rewrite processSimpleReceipt_rejected with (message := message) by assumption.
      cbv zeta. destruct (enableFallback (config (self w))); [|reflexivity].
      destruct (claudeReply adapters input) as [elapsed r|message'] eqn:Hclaude.
      * now rewrite processComplexReceipt_resolved with (elapsed := elapsed) (r := r).
      * now rewrite processComplexReceipt_rejected with (message := message').
  - destruct (claudeReply adapters input) as [elapsed r|message] eqn:Hclaude.
    + now rewrite processComplexReceipt_resolved with (elapsed := elapsed) (r := r).
    + now rewrite processComplexReceipt_rejected with (message := message).
Qed.

(** A property of the instance kept by the three counters and by the
    recording of any attempt the source can record is kept by an invocation. *)
Lemma afterRequest_keeps (P : HybridOcrStrategy.t R -> Prop) :
  (forall this, P this -> P (withSimpleCount this)) ->
  (forall this, P this -> P (withComplexCount this)) ->
  (forall this, P this -> P (withFallback this)) ->
  (forall a this, Emitted a -> P this -> P (recordAttempt a this)) ->
  forall adapters input this, P this -> P (afterRequest adapters input this).
Proof.
  intros Hsimple Hcomplex Hfallback Hrecord adapters input this HP.
  unfold afterRequest.
  destruct (routesToGroq this input).
  - destruct (groqReply adapters input) as [elapsed r|message].
    + apply Hrecord; [constructor|]. now apply Hsimple.
    + assert (Hfailed : P (recordAttempt (groqFailed message) (withSimpleCount this))).
      { apply Hrecord; [constructor|]. now apply Hsimple. }
      cbv zeta. destruct (enableFallback (config this)); [|exact Hfailed].
      destruct (claudeReply adapters input) as [elapsed r|message'].
      * apply Hrecord; [constructor|]. now apply Hcomplex, Hfallback.
      * now apply Hcomplex, Hfallback.
  - destruct (claudeReply adapters input) as [elapsed r|message].
    + apply Hrecord; [constructor|]. now apply Hcomplex.
    + now apply Hcomplex.
Qed.

(** What holds of the instance at every step holds after any number of
    invocations. *)
Lemma invocations_keep (P : HybridOcrStrategy.t R -> Prop) :
  (forall adapters input this, P this -> P (afterRequest adapters input this)) ->
  forall (requests : list (Adapters R * OcrInput)) (w : World R),
    P (self w) -> P (self (invocations requests w)).
Proof.
  intros Hstep requests.
  induction requests as [|[adapters input] rest IH]; intros w HP; cbn [invocations].
  - exact HP.
  - apply IH. rewrite self_of_extractReceipt. now apply Hstep.
Qed.

Lemma recordAttempt_effect (a : OcrAttempt R) (this : HybridOcrStrategy.t R) :
  config (recordAttempt a this) = config this /\
  detector (recordAttempt a this) = detector this /\
  attempts (recordAttempt a this) = attempts this ++ recorded a this /\
  totalReceipts (metrics (recordAttempt a this)) =
    (totalReceipts (metrics this) + List.length (recorded a this))%nat /\
  simpleCount (metrics (recordAttempt a this)) = simpleCount (metrics this) /\
  complexCount (metrics (recordAttempt a this)) = complexCount (metrics this) /\
  claudeFallbackRate (metrics (recordAttempt a this)) = claudeFallbackRate (metrics this).
Proof.
  unfold recordAttempt, recorded.
  destruct (enableMetrics (config this)); cbn;
    rewrite ?app_nil_r; repeat split; lia.
Qed.

(** Read a projection of the instance through the updates of a path. *)
Ltac read_ledger_step :=
  match goal with
  | |- context [recordAttempt ?a ?s] =>
      let E1 := fresh "E" in let E2 := fresh "E" in let E3 := fresh "E" in
      let E4 := fresh "E" in let E5 := fresh "E" in let E6 := fresh "E" in
      let E7 := fresh "E" in
      destruct (recordAttempt_effect a s) as (E1 & E2 & E3 & E4 & E5 & E6 & E7);
      progress (rewrite ?E1, ?E2, ?E3, ?E4, ?E5, ?E6, ?E7);
      clear E1 E2 E3 E4 E5 E6 E7
  end.

Ltac read_ledger_unfold :=
  unfold withSimpleCount, withComplexCount, withFallback, recorded;
  cbn [setMetrics setAttempts incrSimpleCount incrComplexCount
       incrClaudeFallbackRate config metrics attempts detector
       totalReceipts simpleCount complexCount claudeFallbackRate].

Ltac read_ledger :=
  repeat first [ read_ledger_step | progress read_ledger_unfold ].

(** The effect of one invocation on the configuration, the detector, the
    history and the counters. *)
Lemma afterRequest_effect (adapters : Adapters R) (input : OcrInput)
    (this : HybridOcrStrategy.t R) :
  let after := afterRequest adapters input this in
  let new := if enableMetrics (config this) then handedOver adapters input this else [] in
  config after = config this /\
  detector after = detector this /\
  attempts after = attempts this ++ new /\
  totalReceipts (metrics after) = (totalReceipts (metrics this) + List.length new)%nat /\
  simpleCount (metrics after) =
    (simpleCount (metrics this) + if routesToGroq this input then 1 else 0)%nat /\
  complexCount (metrics after) =
    (complexCount (metrics this) + if preciseRuns adapters this input then 1 else 0)%nat /\
  claudeFallbackRate (metrics after) =
    (claudeFallbackRate (metrics this) + if fallsBack adapters input this then 1 else 0)%nat.
Proof.
  cbv zeta. unfold afterRequest, handedOver, preciseRuns, fallsBack.
  destruct (routesToGroq this input); cbn [andb];
    destruct (groqReply adapters input) as [gElapsed gResult|gMessage];
    destruct (enableFallback (config this));
    destruct (claudeReply adapters input) as [cElapsed cResult|cMessage];
    cbv zeta;
    repeat split; read_ledger;
    destruct (enableMetrics (config this));
    cbn [List.length app]; rewrite <- ?app_assoc, ?app_nil_r; cbn [app];
    try reflexivity; lia.
Qed.

End Bookkeeping.

(* ------------------------------------------------------------------ *)
(** ** What the caller gets *)

Section Completions.

Context {R : Type} `{JsNumber R}.
Local Open Scope js_scope.

(** How one invocation completes, read off the two paths. *)
Definition completion (adapters : Adapters R) (input : OcrInput)
    (this : HybridOcrStrategy.t R) : Completion (OcrResult R) :=
  if routesToGroq this input then
    match groqReply adapters input with
    | Resolved _ r => Returned r
    | Rejected message =>
        if enableFallback (config this) then
          match claudeReply adapters input with
          | Resolved _ r => Returned r
          | Rejected message' => Thrown message'
          end
        else Thrown message
    end
  else
    match claudeReply adapters input with
    | Resolved _ r => Returned r
    | Rejected message => Thrown message
    end.

Lemma fst_of_extractReceipt (adapters : Adapters R) (input : OcrInput) (w : World R) :
  fst (extractReceipt adapters input w) = completion adapters input (self w).
Proof.
  rewrite extractReceipt_route. unfold completion.
  destruct (routesToGroq (self w) input).
  - destruct (groqReply adapters input) as [elapsed r|message] eqn:Hgroq.
    + now rewrite processSimpleReceipt_resolved with (elapsed := elapsed) (r := r).
    + rewrite processSimpleReceipt_rejected with (message := message) by assumption.
      cbv zeta. destruct (enableFallback (config (self w))); [|reflexivity].
      destruct (claudeReply adapters input) as [elapsed r|message'] eqn:Hclaude.
      * now rewrite processComplexReceipt_resolved with (elapsed := elapsed) (r := r).
      * now rewrite processComplexReceipt_rejected with (message := message').
  - destruct (claudeReply adapters input) as [elapsed r|message] eqn:Hclaude.
    + now rewrite processComplexReceipt_resolved with (elapsed := elapsed) (r := r).
    + now rewrite processComplexReceipt_rejected with (message := message).
Qed.

(** X1: a request routed to Groq whose Groq call resolves returns the Groq
    result after that single call; the Claude adapter is not called,
    [simpleCount] moves by one, [complexCount] and the fallback counter do
    not move, and the attempt recorded, when metrics are enabled, is the
    Groq success at 0.05. *)
Theorem groq_success_is_served_by_groq_alone
    (adapters : Adapters R) (input : OcrInput) (w : World R)
    (elapsed : nat) (r : OcrResult R) :
  routesToGroq (self w) input = true ->
  groqReply adapters input = Resolved elapsed r ->
  let done := extractReceipt adapters input w in
  fst done = Returned r /\
  calls (snd done) = calls w ++ [groqCall input] /\
  attempts (self (snd done)) =
    attempts (self w) ++
    (if enableMetrics (config (self w)) then [groqSucceeded elapsed r] else []) /\
  simpleCount (metrics (self (snd done))) = S (simpleCount (metrics (self w))) /\
  complexCount (metrics (self (snd done))) = complexCount (metrics (self w)) /\
  claudeFallbackRate (metrics (self (snd done))) = claudeFallbackRate (metrics (self w)).
Proof.
  intros Hroute Hgroq. cbv zeta.
  rewrite fst_of_extractReceipt, calls_of_extractReceipt, self_of_extractReceipt.
  destruct (afterRequest_effect adapters input (self w))
    as (_ & _ & Hattempts & _ & Hsimple & Hcomplex & Hfallback).
  rewrite Hattempts, Hsimple, Hcomplex, Hfallback.
  unfold completion, preciseRuns, handedOver, fallsBack.
  rewrite Hroute, Hgroq. cbn [andb app].
  repeat split; lia.
Qed.

(** X2: a request not routed to Groq whose Claude call resolves returns the
    Claude result after that single call; the Groq adapter is not called,
    [complexCount] moves by one, [simpleCount] and the fallback counter do
    not move, and the attempt recorded, when metrics are enabled, is the
    Claude success at 0.50. *)
Theorem complex_receipt_is_served_by_claude_alone
    (adapters : Adapters R) (input : OcrInput) (w : World R)
    (elapsed : nat) (r : OcrResult R) :
  routesToGroq (self w) input = false ->
  claudeReply adapters input = Resolved elapsed r ->
  let done := extractReceipt adapters input w in
  fst done = Returned r /\
  calls (snd done) = calls w ++ [claudeCall input] /\
  attempts (self (snd done)) =
    attempts (self w) ++
    (if enableMetrics (config (self w)) then [claudeSucceeded elapsed r] else []) /\
  simpleCount (metrics (self (snd done))) = simpleCount (metrics (self w)) /\
  complexCount (metrics (self (snd done))) = S (complexCount (metrics (self w))) /\
  claudeFallbackRate (metrics (self (snd done))) = claudeFallbackRate (metrics (self w)).
Proof.
  intros Hroute Hclaude. cbv zeta.
  rewrite fst_of_extractReceipt, calls_of_extractReceipt, self_of_extractReceipt.
  destruct (afterRequest_effect adapters input (self w))
    as (_ & _ & Hattempts & _ & Hsimple & Hcomplex & Hfallback).
  rewrite Hattempts, Hsimple, Hcomplex, Hfallback.
  unfold completion, preciseRuns, handedOver, fallsBack.
  rewrite Hroute, Hclaude. cbn [andb app].
  repeat split; lia.
Qed.

(** X3: with fallback enabled, a request succeeds whenever the Claude
    adapter would resolve: the result is that of Claude, or that of Groq
    when the request was routed to Groq and Groq resolved. *)
Theorem fallback_makes_claude_the_last_resort
    (adapters : Adapters R) (input : OcrInput) (w : World R)
    (elapsed : nat) (r : OcrResult R) :
  enableFallback (config (self w)) = true ->
  claudeReply adapters input = Resolved elapsed r ->
  fst (extractReceipt adapters input w) = Returned r \/
  (routesToGroq (self w) input = true /\
   exists elapsed' r',
     groqReply adapters input = Resolved elapsed' r' /\
     fst (extractReceipt adapters input w) = Returned r').
Proof.
  intros Hfallback Hclaude. rewrite fst_of_extractReceipt. unfold completion.
  rewrite Hfallback, Hclaude.
  destruct (routesToGroq (self w) input); [|now left].
  destruct (groqReply adapters input) as [elapsed' r'|message]; [|now left].
  right. split; [reflexivity|]. now exists elapsed', r'.
Qed.

(** X4: the error a failed request throws is a rejection of the last
    adapter called: that of Claude whenever the Claude path ran, and that of
    Groq only when the request was routed to Groq with fallback disabled. A
    Groq rejection never reaches the caller while fallback is enabled. *)
Theorem thrown_error_is_the_last_rejection
    (adapters : Adapters R) (input : OcrInput) (w : World R) (message : string) :
  fst (extractReceipt adapters input w) = Thrown message ->
  (preciseRuns adapters (self w) input = true /\
   claudeReply adapters input = Rejected message) \/
  (preciseRuns adapters (self w) input = false /\
   routesToGroq (self w) input = true /\
   enableFallback (config (self w)) = false /\
   groqReply adapters input = Rejected message).
Proof.
  rewrite fst_of_extractReceipt. unfold completion, preciseRuns.
  destruct (routesToGroq (self w) input).
  - destruct (groqReply adapters input) as [elapsed r|message0]; [discriminate|].
    destruct (enableFallback (config (self w))).
    + destruct (claudeReply adapters input) as [elapsed r|message']; [discriminate|].
      intros [= ->]. now left.
    + intros [= ->]. right. repeat split.
  - destruct (claudeReply adapters input) as [elapsed r|message']; [discriminate|].
    intros [= ->]. now left.
Qed.

Lemma recordAttempt_setMaxGroqRetries (n : nat) (a : OcrAttempt R)
    (this : HybridOcrStrategy.t R) :
  recordAttempt a (setMaxGroqRetries n this) = setMaxGroqRetries n (recordAttempt a this).
Proof.
  unfold recordAttempt. cbn [setMaxGroqRetries config enableMetrics].
  destruct (enableMetrics (config this)); reflexivity.
Qed.

Lemma counters_setMaxGroqRetries (n : nat) (this : HybridOcrStrategy.t R) :
  withSimpleCount (setMaxGroqRetries n this) = setMaxGroqRetries n (withSimpleCount this) /\
  withComplexCount (setMaxGroqRetries n this) = setMaxGroqRetries n (withComplexCount this) /\
  withFallback (setMaxGroqRetries n this) = setMaxGroqRetries n (withFallback this).
Proof. repeat split. Qed.

(** X5: [maxGroqRetries] is never read: changing it changes neither what an
    invocation returns or throws, nor the calls it makes, nor anything it
    writes; in particular a rejected Groq call is never retried. *)
Theorem maxGroqRetries_has_no_effect
    (n : nat) (adapters : Adapters R) (input : OcrInput) (w : World R) :
  let w_n := {| self := setMaxGroqRetries n (self w); calls := calls w |} in
  fst (extractReceipt adapters input w_n) = fst (extractReceipt adapters input w) /\
  calls (snd (extractReceipt adapters input w_n)) =
    calls (snd (extractReceipt adapters input w)) /\
  self (snd (extractReceipt adapters input w_n)) =
    setMaxGroqRetries n (self (snd (extractReceipt adapters input w))) /\
  List.length (calls (snd (extractReceipt adapters input w))) <=
    List.length (calls w) + 2.
Proof.
  cbv zeta.
  rewrite !fst_of_extractReceipt, !calls_of_extractReceipt, !self_of_extractReceipt.
  cbn [self calls].
  unfold completion, preciseRuns, afterRequest.
  change (routesToGroq (setMaxGroqRetries n (self w)) input)
    with (routesToGroq (self w) input).
  change (enableFallback (config (setMaxGroqRetries n (self w))))
    with (enableFallback (config (self w))).
  split; [reflexivity|]. split; [reflexivity|]. split.
  - assert (Hpush : forall this,
        withSimpleCount (setMaxGroqRetries n this) =
          setMaxGroqRetries n (withSimpleCount this) /\
        withComplexCount (setMaxGroqRetries n this) =
          setMaxGroqRetries n (withComplexCount this) /\
        withFallback (setMaxGroqRetries n this) =
          setMaxGroqRetries n (withFallback this))
      by (intros; apply counters_setMaxGroqRetries).
    destruct (routesToGroq (self w) input);
      destruct (groqReply adapters input);
      destruct (enableFallback (config (self w)));
      destruct (claudeReply adapters input);
      cbv zeta;
      repeat first
        [ rewrite recordAttempt_setMaxGroqRetries
        | rewrite (proj1 (Hpush _))
        | rewrite (proj1 (proj2 (Hpush _)))
        | rewrite (proj2 (proj2 (Hpush _))) ];
      reflexivity.
  - rewrite !length_app.
    destruct (routesToGroq (self w) input);
      destruct (groqReply adapters input);
      destruct (enableFallback (config (self w))); cbn; lia.
Qed.

End Completions.

(** X1 to X4 on the demo receipts, default configuration, in binary64. *)
Lemma groq_success_is_served_by_groq_alone_witness :
  let done := extractReceipt (R:=float) bothUp sevenEleven (fresh newByName noOverrides) in
  fst done = Returned groqResult /\
  calls (snd done) = [groqCall sevenEleven] /\
  attempts (self (snd done)) = [groqSucceeded 100 groqResult].
Proof.
  destruct (@groq_success_is_served_by_groq_alone float _
              bothUp sevenEleven (fresh newByName noOverrides) 100 groqResult)
    as (Hresult & Hcalls & Hattempts & _).
  - exact sevenEleven_routes_to_groq.
  - reflexivity.
  - exact (conj Hresult (conj Hcalls Hattempts)).
Defined.

Lemma complex_receipt_is_served_by_claude_alone_witness :
  let done := extractReceipt (R:=float) bothUp restaurant (fresh newByName noOverrides) in
  fst done = Returned claudeResult /\
  calls (snd done) = [claudeCall restaurant] /\
  attempts (self (snd done)) = [claudeSucceeded 1200 claudeResult].
Proof.
  destruct (@complex_receipt_is_served_by_claude_alone float _
              bothUp restaurant (fresh newByName noOverrides) 1200 claudeResult)
    as (Hresult & Hcalls & Hattempts & _).
  - exact restaurant_routes_to_claude.
  - reflexivity.
  - exact (conj Hresult (conj Hcalls Hattempts)).
Defined.

Lemma fallback_makes_claude_the_last_resort_witness :
  fst (extractReceipt (R:=float) groqDown sevenEleven (fresh newByName noOverrides)) =
  Returned claudeResult.
Proof.
  destruct (@fallback_makes_claude_the_last_resort float _
              groqDown sevenEleven (fresh newByName noOverrides) 1200 claudeResult
              eq_refl eq_refl)
    as [Hclaude|(_ & elapsed & r & Hgroq & _)].
  - exact Hclaude.
  - discriminate Hgroq.
Defined.

Lemma thrown_error_is_the_last_rejection_witness :
  claudeReply (R:=float) bothDown sevenEleven = Rejected claudeError.
Proof.
  destruct (@thrown_error_is_the_last_rejection float _
              bothDown sevenEleven (fresh newByName noOverrides) claudeError)
    as [(_ & Hclaude)|(_ & _ & Hfallback & _)].
  - vm_compute. reflexivity.
  - exact Hclaude.
  - discriminate Hfallback.
Defined.

(* ------------------------------------------------------------------ *)
(** ** What the counters and the history keep *)

Section Ledger.

Context {R : Type} `{JsNumber R}.

(** An attempt as the history holds it: a success carries its result and no
    error; a failure is a Groq one, carries its error and no result, and has
    no duration; the provider is never ['paddle']. *)
Definition wellRecorded (a : OcrAttempt R) : Prop :=
  provider a <> paddle /\
  (success a = true -> (exists r, result a = Some r) /\ error a = None) /\
  (success a = false ->
   provider a = groq /\ result a = None /\ (exists message, error a = Some message) /\
   duration a = 0).

Lemma Emitted_wellRecorded (a : OcrAttempt R) : Emitted a -> wellRecorded a.
Proof.
  intros [elapsed r|message|elapsed r]; unfold wellRecorded; cbn;
    repeat split; try discriminate; eauto.
Qed.

Lemma handedOver_shape (adapters : Adapters R) (input : OcrInput)
    (this : HybridOcrStrategy.t R) :
  Forall Emitted (handedOver adapters input this) /\
  (List.length (handedOver adapters input this) <=
   (if routesToGroq this input then 1 else 0) +
   (if preciseRuns adapters this input then 1 else 0))%nat /\
  ((if routesToGroq this input then 1 else 0) +
   (if preciseRuns adapters this input then 1 else 0) =
   1 + (if fallsBack adapters input this then 1 else 0))%nat.
Proof.
  unfold handedOver, preciseRuns, fallsBack.
  destruct (routesToGroq this input); cbn [andb];
    destruct (groqReply adapters input);
    destruct (enableFallback (config this));
    destruct (claudeReply adapters input);
    cbn [List.length]; repeat split; repeat constructor; lia.
Qed.

(** Any number of invocations, from any state: what is appended and how the
    counters move. *)
Lemma invocations_effect (requests : list (Adapters R * OcrInput)) :
  forall w : World R,
  let before := self w in
  let after := self (invocations requests w) in
  config after = config before /\
  detector after = detector before /\
  (exists newer,
     attempts after = attempts before ++ newer /\
     Forall Emitted newer /\
     (totalReceipts (metrics after) = totalReceipts (metrics before) + List.length newer /\
      totalReceipts (metrics after) + simpleCount (metrics before) +
        complexCount (metrics before) <=
      totalReceipts (metrics before) + simpleCount (metrics after) +
        complexCount (metrics after))%nat) /\
  (simpleCount (metrics after) + complexCount (metrics after) +
     claudeFallbackRate (metrics before) =
   simpleCount (metrics before) + complexCount (metrics before) +
     claudeFallbackRate (metrics after) + List.length requests /\
   claudeFallbackRate (metrics after) + simpleCount (metrics before) <=
     claudeFallbackRate (metrics before) + simpleCount (metrics after) /\
   claudeFallbackRate (metrics after) + complexCount (metrics before) <=
     claudeFallbackRate (metrics before) + complexCount (metrics after))%nat.
Proof.
  induction requests as [|[adapters input] rest IH]; intros w; cbv zeta;
    cbn [invocations List.length].
  - repeat split; try lia. exists []. rewrite app_nil_r. repeat split; auto; lia.
  - specialize (IH (snd (extractReceipt adapters input w))). cbv zeta in IH.
    rewrite self_of_extractReceipt in IH.
    destruct IH as (Hconfig & Hdetector & (newer & Hattempts & Hemitted & Htotal & Hle)
                    & Hsum & Hfs & Hfc).
    destruct (afterRequest_effect adapters input (self w))
      as (Hc1 & Hd1 & Ha1 & Ht1 & Hs1 & Hx1 & Hf1).
    destruct (handedOver_shape adapters input (self w)) as (Hem1 & Hlen1 & Hone1).
    rewrite Hc1 in Hconfig. rewrite Hd1 in Hdetector.
    rewrite Ha1 in Hattempts. rewrite Ht1 in Htotal, Hle.
    rewrite Hs1, Hx1 in Hle, Hsum. rewrite Hs1 in Hfs. rewrite Hx1 in Hfc.
    rewrite Hf1 in Hsum, Hfs, Hfc.
    set (new := if enableMetrics (config (self w))
                then handedOver adapters input (self w) else []) in *.
    assert (Hnew : Forall Emitted new /\
                   (List.length new <= List.length (handedOver adapters input (self w)))%nat).
    { subst new. destruct (enableMetrics (config (self w))); split; auto; cbn; lia. }
    destruct Hnew as (Hemnew & Hlennew).
    assert (Hfb : ((if fallsBack adapters input (self w) then 1 else 0) <=
                   (if routesToGroq (self w) input then 1 else 0) /\
                   (if fallsBack adapters input (self w) then 1 else 0) <=
                   (if preciseRuns adapters (self w) input then 1 else 0))%nat).
    { unfold fallsBack, preciseRuns.
      destruct (routesToGroq (self w) input); cbn [andb];
        destruct (groqReply adapters input);
        destruct (enableFallback (config (self w))); lia. }
    split; [exact Hconfig|]. split; [exact Hdetector|]. split.
    + exists (new ++ newer). rewrite app_assoc. split; [exact Hattempts|].
      split; [now apply Forall_app|]. rewrite length_app. lia.
    + lia.
Qed.

(** X6: on a router just constructed, whatever its configuration and
    whatever the adapters reply, the route counters account for every
    request served: [simpleCount + complexCount] is the number of requests
    plus the number of fallbacks, the fallback counter exceeds neither, and
    [totalReceipts] never exceeds their sum. *)
Theorem route_counters_account_for_every_request
    (detector : SimpleReceiptDetector.t R) (config : PartialConfig R)
    (requests : list (Adapters R * OcrInput)) :
  let m := getMetrics (self (invocations requests (fresh detector config))) in
  simpleCount m + complexCount m = List.length requests + claudeFallbackRate m /\
  claudeFallbackRate m <= simpleCount m /\
  claudeFallbackRate m <= complexCount m /\
  totalReceipts m <= simpleCount m + complexCount m.
Proof.
  cbv zeta. unfold getMetrics.
  destruct (invocations_effect requests (fresh detector config))
    as (_ & _ & (newer & _ & _ & Htotal & Hle) & Hsum & Hfs & Hfc).
  cbn [fresh self new metrics initMetrics simpleCount complexCount claudeFallbackRate
       totalReceipts] in Htotal, Hle, Hsum, Hfs, Hfc.
  lia.
Qed.

(** X7: the history is append-only. Any number of invocations, from any
    state, leave the earlier attempts in place and add at most two per
    request, each one a Groq success, a Groq failure or a Claude success;
    the configuration and the detector are not written. *)
Theorem history_is_append_only
    (requests : list (Adapters R * OcrInput)) (w : World R) :
  let after := self (invocations requests w) in
  config after = config (self w) /\
  detector after = detector (self w) /\
  exists newer,
    getAttempts after = getAttempts (self w) ++ newer /\
    List.length newer <= 2 * List.length requests /\
    Forall wellRecorded newer.
Proof.
  cbv zeta. unfold getAttempts.
  destruct (invocations_effect requests w)
    as (Hconfig & Hdetector & (newer & Hattempts & Hemitted & Htotal & Hle)
        & Hsum & Hfs & Hfc).
  split; [exact Hconfig|]. split; [exact Hdetector|].
  exists newer. split; [exact Hattempts|]. split.
  - lia.
  - eapply Forall_impl; [|exact Hemitted]. apply Emitted_wellRecorded.
Qed.

(** X8: on a router just constructed, [totalReceipts] is the length of the
    history after any number of invocations, and every attempt of the
    history is well recorded; in particular no failed Claude call is ever in
    it. *)
Theorem totalReceipts_is_the_history_length
    (detector : SimpleReceiptDetector.t R) (config : PartialConfig R)
    (requests : list (Adapters R * OcrInput)) :
  let after := self (invocations requests (fresh detector config)) in
  totalReceipts (getMetrics after) = List.length (getAttempts after) /\
  Forall wellRecorded (getAttempts after) /\
  Forall (fun a => provider a = claude -> success a = true) (getAttempts after).
Proof.
  cbv zeta. unfold getMetrics, getAttempts.
  destruct (invocations_effect requests (fresh detector config))
    as (_ & _ & (newer & Hattempts & Hemitted & Htotal & _) & _).
  cbn [fresh self new attempts metrics initMetrics totalReceipts app] in Hattempts, Htotal.
  rewrite Hattempts. split; [exact Htotal|]. split.
  - eapply Forall_impl; [|exact Hemitted]. apply Emitted_wellRecorded.
  - eapply Forall_impl; [|exact Hemitted].
    intros a [elapsed r|message|elapsed r]; cbn; congruence.
Qed.

(** X9: [resetMetrics] undoes any number of invocations: it gives back the
    instance the constructor built. *)
Theorem resetMetrics_restores_the_constructed_router
    (detector : SimpleReceiptDetector.t R) (config : PartialConfig R)
    (requests : list (Adapters R * OcrInput)) :
  resetMetrics (self (invocations requests (fresh detector config))) =
  new detector config.
Proof.
  destruct (invocations_effect requests (fresh detector config))
    as (Hconfig & Hdetector & _).
  unfold resetMetrics, setAttempts, setMetrics.
  cbn [HybridOcrStrategy.detector HybridOcrStrategy.config metrics attempts].
  rewrite Hconfig, Hdetector. reflexivity.
Qed.

End Ledger.

(* ------------------------------------------------------------------ *)
(** ** Costs and rates *)

Section Accounting.

Context {R : Type} `{JsNumber R}.
Local Open Scope js_scope.

(** The costs of a history added up the way [recordAttempt] adds them: from
    0, oldest first. *)
Definition runningCost (history : list (OcrAttempt R)) : R :=
  fold_left (fun total a => total + cost a) history (num_dec 0 1).

(** The four values [updateMetrics] writes are those it would write now. *)
Definition upToDate (this : HybridOcrStrategy.t R) : Prop :=
  groqSuccessRate (metrics this) = groqSuccessRate (metrics (updateMetrics this)) /\
  avgCostPerReceipt (metrics this) = avgCostPerReceipt (metrics (updateMetrics this)) /\
  savingsVsClaudeOnly (metrics this) = savingsVsClaudeOnly (metrics (updateMetrics this)) /\
  manualReviewRate (metrics this) = manualReviewRate (metrics (updateMetrics this)).

(** Nothing recorded yet: the four values are the zeros of [initMetrics]. *)
Definition nothingRecorded (this : HybridOcrStrategy.t R) : Prop :=
  attempts this = [] /\
  groqSuccessRate (metrics this) = num_dec 0 1 /\
  avgCostPerReceipt (metrics this) = num_dec 0 1 /\
  savingsVsClaudeOnly (metrics this) = num_dec 0 1 /\
  manualReviewRate (metrics this) = num_dec 0 1.

Definition booksBalance (this : HybridOcrStrategy.t R) : Prop :=
  totalReceipts (metrics this) = List.length (attempts this) /\
  totalCost (metrics this) = runningCost (attempts this) /\
  Forall Emitted (attempts this) /\
  (nothingRecorded this \/ (attempts this <> [] /\ upToDate this)).

Lemma booksBalance_counter (f : HybridMetrics R -> HybridMetrics R) :
  (forall m, totalReceipts (f m) = totalReceipts m /\
             totalCost (f m) = totalCost m /\
             groqSuccessRate (f m) = groqSuccessRate m /\
             avgCostPerReceipt (f m) = avgCostPerReceipt m /\
             savingsVsClaudeOnly (f m) = savingsVsClaudeOnly m /\
             manualReviewRate (f m) = manualReviewRate m) ->
  forall this, booksBalance this -> booksBalance (setMetrics this (f (metrics this))).
Proof.
  intros Hf this (Htotal & Hcost & Hemitted & Hderived).
  destruct (Hf (metrics this)) as (Ht & Hc & Hg & Ha & Hs & Hm).
  unfold booksBalance, nothingRecorded, upToDate, updateMetrics.
  cbn [setMetrics metrics attempts groqSuccessRate avgCostPerReceipt
       savingsVsClaudeOnly manualReviewRate].
  rewrite Ht, Hc, Hg, Ha, Hs, Hm.
  repeat split; assumption.
Qed.

Lemma booksBalance_recordAttempt (a : OcrAttempt R) (this : HybridOcrStrategy.t R) :
  Emitted a -> booksBalance this -> booksBalance (recordAttempt a this).
Proof.
  intros Ha (Htotal & Hcost & Hemitted & Hderived). unfold recordAttempt.
  destruct (enableMetrics (config this)); cbn [negb].
  - unfold booksBalance. cbv zeta.
    split; [|split; [|split]].
    + cbn. rewrite length_app, Htotal. cbn. lia.
    + cbn. unfold runningCost. rewrite fold_left_app. cbn [fold_left].
      fold (runningCost (attempts this)). now rewrite Hcost.
    + cbn. apply Forall_app. split; [assumption|]. now constructor.
    + right. split; [|repeat split].
      cbn. intros Hnil. now apply app_eq_nil in Hnil as (_ & Hnil).
  - repeat split; assumption.
Qed.

Lemma constructed_router_booksBalance
    (detector : SimpleReceiptDetector.t R) (config : PartialConfig R)
    (requests : list (Adapters R * OcrInput)) :
  booksBalance (self (invocations requests (fresh detector config))).
Proof.
  apply invocations_keep.
  - intros adapters input this Hthis. apply afterRequest_keeps; try assumption.
    + intros s Hs. apply (booksBalance_counter incrSimpleCount); [|assumption].
      intros m. repeat split.
    + intros s Hs. apply (booksBalance_counter incrComplexCount); [|assumption].
      intros m. repeat split.
    + intros s Hs. apply (booksBalance_counter incrClaudeFallbackRate); [|assumption].
      intros m. repeat split.
    + intros a s. apply booksBalance_recordAttempt.
  - split; [reflexivity|]. split; [reflexivity|]. split; [constructor|].
    left. repeat split.
Qed.

(** X10: on a router just constructed, after any number of invocations and
    for either kind of number, [totalCost] is the sum of the costs of the
    recorded attempts, added oldest first from 0, and the four derived
    values are the zeros of the constructor while nothing is recorded and
    what [updateMetrics] computes from the history afterwards. *)
Theorem metrics_follow_the_history
    (detector : SimpleReceiptDetector.t R) (config : PartialConfig R)
    (requests : list (Adapters R * OcrInput)) :
  let after := self (invocations requests (fresh detector config)) in
  totalCost (getMetrics after) = runningCost (getAttempts after) /\
  (getAttempts after = [] ->
   (groqSuccessRate (getMetrics after), avgCostPerReceipt (getMetrics after),
    savingsVsClaudeOnly (getMetrics after), manualReviewRate (getMetrics after)) =
   (num_dec 0 1, num_dec 0 1, num_dec 0 1, num_dec 0 1)) /\
  (getAttempts after <> [] ->
   getMetrics (updateMetrics after) = getMetrics after).
Proof.
  cbv zeta. unfold getMetrics, getAttempts.
  destruct (constructed_router_booksBalance detector config requests)
    as (Htotal & Hcost & Hemitted & Hderived).
  split; [exact Hcost|]. split.
  - intros Hempty.
    destruct Hderived as [(_ & -> & -> & -> & ->)|(Hsome & _)];
      [reflexivity|contradiction].
  - intros Hsome.
    destruct Hderived as [(Hempty & _)|(_ & Hg & Ha & Hs & Hm)]; [contradiction|].
    destruct (metrics (self (invocations requests (fresh detector config))))
      as [total simple complex rate fallback cost avg savings review] eqn:Hmetrics.
    unfold updateMetrics in *. rewrite Hmetrics in *.
    cbn [setMetrics metrics groqSuccessRate avgCostPerReceipt savingsVsClaudeOnly
         manualReviewRate totalReceipts simpleCount complexCount claudeFallbackRate
         totalCost] in *.
    now rewrite <- Hg, <- Ha, <- Hs, <- Hm.
Qed.

End Accounting.

(** *** Over exact numbers *)

(** The counts of a history by kind of attempt. *)
Definition groqSuccesses (history : list (OcrAttempt Q)) : nat :=
  List.length (filter (fun a => isGroq (provider a) && success a) history).

Definition groqFailures (history : list (OcrAttempt Q)) : nat :=
  List.length (filter (fun a => isGroq (provider a) && negb (success a)) history).

Definition claudeAttempts (history : list (OcrAttempt Q)) : nat :=
  List.length (filter (fun a => match provider a with claude => true | _ => false end)
                 history).

Lemma Q_of_nat_S (n : nat) : (num_of_nat (S n) == num_of_nat n + 1)%Q.
Proof.
  cbn [num_of_nat Q_JsNumber]. rewrite Nat2Z.inj_succ. unfold Z.succ.
  now rewrite inject_Z_plus.
Qed.

Lemma Q_of_nat_nonneg (n : nat) : (0 <= num_of_nat n)%Q.
Proof.
  cbn [num_of_nat Q_JsNumber]. change 0%Q with (inject_Z 0).
  rewrite <- Zle_Qle. lia.
Qed.

Lemma Q_of_nat_le (n m : nat) : n <= m -> (num_of_nat n <= num_of_nat m)%Q.
Proof.
  intros Hle. cbn [num_of_nat Q_JsNumber]. rewrite <- Zle_Qle. lia.
Qed.

Lemma Q_of_nat_pos (n : nat) : 0 < n -> (0 < num_of_nat n)%Q.
Proof.
  intros Hpos. cbn [num_of_nat Q_JsNumber]. change 0%Q with (inject_Z 0).
  rewrite <- Zlt_Qlt. lia.
Qed.

Lemma history_by_kind (history : list (OcrAttempt Q)) :
  Forall Emitted history ->
  List.length history =
    groqSuccesses history + groqFailures history + claudeAttempts history /\
  forall start : Q,
    (fold_left (fun total a => num_add total (cost a)) history start ==
     start + (5 # 100) * num_of_nat (groqSuccesses history) +
     (50 # 100) * num_of_nat (claudeAttempts history))%Q.
Proof.
  unfold groqSuccesses, groqFailures, claudeAttempts.
  induction 1 as [|a history Ha Hrest (IHlen & IHsum)].
  - split; [reflexivity|]. intros start. cbn. ring.
  - split.
    + destruct Ha;
        cbn [filter provider success isGroq andb negb List.length
             groqSucceeded groqFailed claudeSucceeded];
        rewrite IHlen; lia.
    + intros start. cbn [fold_left]. rewrite IHsum.
      destruct Ha; cbn [filter provider success isGroq andb negb List.length cost
                        groqSucceeded groqFailed claudeSucceeded];
        rewrite ?Q_of_nat_S; cbn [num_add num_dec Q_JsNumber]; ring.
Qed.

Lemma Q_of_nat_add (n m : nat) : (num_of_nat (n + m) == num_of_nat n + num_of_nat m)%Q.
Proof.
  cbn [num_of_nat Q_JsNumber]. now rewrite Nat2Z.inj_add, inject_Z_plus.
Qed.

Lemma Q_ratio_in_unit_interval (n m : nat) :
  n <= m -> 0 < m -> (0 <= num_of_nat n / num_of_nat m <= 1)%Q.
Proof.
  intros Hle Hpos.
  pose proof (Q_of_nat_pos Hpos) as Hm.
  pose proof (Q_of_nat_nonneg n) as Hn.
  pose proof (Q_of_nat_le Hle) as Hnm.
  split.
  - apply Qle_shift_div_l; [exact Hm|]. lra.
  - apply Qle_shift_div_r; [exact Hm|]. lra.
Qed.

(** X11: over exact numbers, on a router just constructed and after any
    number of invocations: [totalCost] is 0.05 per recorded Groq success
    plus 0.50 per recorded Claude attempt; [savingsVsClaudeOnly] is 0.45 per
    Groq success plus 0.50 per failed Groq attempt, so it is never negative;
    and [avgCostPerReceipt] lies between 0 and 0.50. *)
Theorem costs_add_up_over_exact_numbers
    (detector : SimpleReceiptDetector.t Q) (config : PartialConfig Q)
    (requests : list (Adapters Q * OcrInput)) :
  let after := self (invocations requests (fresh detector config)) in
  let m := getMetrics after in
  let history := getAttempts after in
  (totalCost m ==
   (5 # 100) * num_of_nat (groqSuccesses history) +
   (50 # 100) * num_of_nat (claudeAttempts history))%Q /\
  (savingsVsClaudeOnly m ==
   (45 # 100) * num_of_nat (groqSuccesses history) +
   (50 # 100) * num_of_nat (groqFailures history))%Q /\
  (0 <= savingsVsClaudeOnly m)%Q /\
  (0 <= avgCostPerReceipt m <= 50 # 100)%Q.
Proof.
  cbv zeta. unfold getMetrics, getAttempts.
  destruct (constructed_router_booksBalance detector config requests)
    as (Htotal & Hcost & Hemitted & Hderived).
  set (after := self (invocations requests (fresh detector config))) in *.
  destruct (history_by_kind Hemitted) as (Hlen & Hsum).
  pose proof (Q_of_nat_nonneg (groqSuccesses (attempts after))) as Hok.
  pose proof (Q_of_nat_nonneg (groqFailures (attempts after))) as Hfail.
  pose proof (Q_of_nat_nonneg (claudeAttempts (attempts after))) as Hclaude.
  assert (Hcost' : (totalCost (metrics after) ==
                    (5 # 100) * num_of_nat (groqSuccesses (attempts after)) +
                    (50 # 100) * num_of_nat (claudeAttempts (attempts after)))%Q).
  { rewrite Hcost. unfold runningCost. rewrite Hsum.
    cbn [num_dec Q_JsNumber]. ring. }
  assert (Hn : (num_of_nat (totalReceipts (metrics after)) ==
                num_of_nat (groqSuccesses (attempts after)) +
                num_of_nat (groqFailures (attempts after)) +
                num_of_nat (claudeAttempts (attempts after)))%Q).
  { rewrite Htotal, Hlen. now rewrite !Q_of_nat_add. }
  assert (Hsavings : (savingsVsClaudeOnly (metrics after) ==
                      (45 # 100) * num_of_nat (groqSuccesses (attempts after)) +
                      (50 # 100) * num_of_nat (groqFailures (attempts after)))%Q).
  { destruct Hderived as [(Hempty & _ & _ & -> & _)|(_ & _ & _ & -> & _)].
    - rewrite Hempty. cbn. reflexivity.
    - unfold updateMetrics.
      cbn [setMetrics metrics savingsVsClaudeOnly num_sub num_mul num_dec Q_JsNumber].
      rewrite Hn, Hcost'. ring. }
  split; [exact Hcost'|]. split; [exact Hsavings|]. split; [lra|].
  destruct Hderived as [(_ & _ & -> & _)|(_ & _ & -> & _)].
  - cbn. lra.
  - unfold updateMetrics. cbn [setMetrics metrics avgCostPerReceipt].
    destruct (totalReceipts (metrics after)) as [|n] eqn:Hreceipts;
      cbn [Nat.ltb Nat.leb]; [cbn; lra|].
    assert (Hpos : (0 < num_of_nat (S n))%Q) by (apply Q_of_nat_pos; lia).
    cbn [num_div Q_JsNumber]. split.
    + apply Qle_shift_div_l; [exact Hpos|]. lra.
    + apply Qle_shift_div_r; [exact Hpos|]. lra.
Qed.

(** X12: over exact numbers, on a router just constructed and after any
    number of invocations, [groqSuccessRate] and [manualReviewRate] lie
    between 0 and 1. *)
Theorem rates_lie_in_the_unit_interval
    (detector : SimpleReceiptDetector.t Q) (config : PartialConfig Q)
    (requests : list (Adapters Q * OcrInput)) :
  let m := getMetrics (self (invocations requests (fresh detector config))) in
  (0 <= groqSuccessRate m <= 1)%Q /\ (0 <= manualReviewRate m <= 1)%Q.
Proof.
  cbv zeta. unfold getMetrics.
  destruct (constructed_router_booksBalance detector config requests)
    as (Htotal & _ & _ & Hderived).
  set (after := self (invocations requests (fresh detector config))) in *.
  destruct Hderived as [(_ & -> & _ & _ & ->)|(_ & -> & _ & _ & ->)].
  - cbn. lra.
  - unfold updateMetrics. cbn [setMetrics metrics groqSuccessRate manualReviewRate].
    rewrite Htotal. split.
    + destruct (List.length (filter (fun a => isGroq (provider a)) (attempts after)))
        as [|n] eqn:Hgroq; cbn [Nat.ltb Nat.leb]; [cbn; lra|].
      rewrite <- Hgroq. apply Q_ratio_in_unit_interval.
      * apply filter_length_le.
      * lia.
    + destruct (List.length (attempts after)) as [|n] eqn:Hlen;
        cbn [Nat.ltb Nat.leb]; [cbn; lra|].
      rewrite <- Hlen. apply Q_ratio_in_unit_interval.
      * apply filter_length_le.
      * lia.
Qed.

(* ------------------------------------------------------------------ *)
(** ** The two feature extractions *)

Lemma split_without_separator (s : string) :
  JsString.includes s "-" = false -> JsString.split "-" s = [s].
Proof.
  induction s as [|c rest IH]; [reflexivity|].
  cbn [JsString.includes JsString.split String.prefix].
  destruct (ascii_dec "-" c) as [<-|Hc].
  - destruct rest; discriminate.
  - cbn [orb]. intros Hrest.
    assert (Heqb : Ascii.eqb c "-" = false).
    { apply Ascii.eqb_neq. congruence. }
    rewrite Heqb, (IH Hrest). reflexivity.
Qed.

(** X13: with the detector that reads the mock name and the default
    configuration, a request is routed to Groq exactly when the name (the
    text between the first two dashes, in lower case) contains ["7eleven"] or
    ["tesco"] and contains neither ["handwritten"] nor ["faded"]; binary64
    and exact numbers agree on it. An image string without a dash has an
    empty name and goes to Claude. *)
Theorem mock_name_decides_the_route (input : OcrInput) :
  let image := ReceiptExtraction.imageBase64 input in
  let name := imageNameOf image in
  let branded :=
    (JsString.includes name "7eleven" || JsString.includes name "tesco") &&
    negb (JsString.includes name "handwritten") &&
    negb (JsString.includes name "faded") in
  routesToGroq (self (fresh (R:=float) newByName noOverrides)) input = branded /\
  routesToGroq (self (fresh (R:=Q) newByName noOverrides)) input = branded /\
  (JsString.includes image "-" = false -> name = ""%string /\ branded = false).
Proof.
  cbv zeta. split; [|split].
  - unfold routesToGroq, fresh, new. cbn [self detector config simpleConfidenceThreshold orDefault
      simpleConfidenceThreshold_opt noOverrides].
    unfold classify, newByName, extractFeaturesByName. cbv zeta.
    cbn [extractFeatures SimpleReceiptDetector.config isSimple confidence].
    generalize (imageNameOf (ReceiptExtraction.imageBase64 input)). intros name.
    destruct (JsString.includes name "7eleven"),
             (JsString.includes name "tesco"),
             (JsString.includes name "handwritten"),
             (JsString.includes name "faded"); vm_compute; reflexivity.
  - unfold routesToGroq, fresh, new. cbn [self detector config simpleConfidenceThreshold orDefault
      simpleConfidenceThreshold_opt noOverrides].
    unfold classify, newByName, extractFeaturesByName. cbv zeta.
    cbn [extractFeatures SimpleReceiptDetector.config isSimple confidence].
    generalize (imageNameOf (ReceiptExtraction.imageBase64 input)). intros name.
    destruct (JsString.includes name "7eleven"),
             (JsString.includes name "tesco"),
             (JsString.includes name "handwritten"),
             (JsString.includes name "faded"); vm_compute; reflexivity.
  - intros Hdash. unfold imageNameOf.
    rewrite (split_without_separator _ Hdash). split; reflexivity.
Qed.

(** The mock name of an image string without a dash. *)
Lemma mock_name_decides_the_route_witness :
  imageNameOf "base64data" = ""%string.
Proof.
  destruct (mock_name_decides_the_route
              {| ReceiptExtraction.correlationId := "test-001";
                 ReceiptExtraction.imageBase64 := "base64data";
                 ReceiptExtraction.imageFormat := None |})
    as (_ & _ & Hdash).
  apply Hdash. reflexivity.
Defined.

Lemma Qle_bool_false (a b : Q) : (b < a)%Q -> Qle_bool a b = false.
Proof.
  intros Hlt. destruct (Qle_bool a b) eqn:Hle; [|reflexivity].
  apply Qle_bool_iff in Hle. exfalso. exact (Qlt_not_le _ _ Hlt Hle).
Qed.

(** Settle every comparison of rationals the hypotheses decide, innermost
    first, and then the comparisons of integers. *)
Ltac decide_Qle :=
  repeat (match goal with
          | |- context [Qle_bool ?a ?b] =>
              first [ rewrite (proj2 (Qle_bool_iff a b)) by lra
                    | rewrite (@Qle_bool_false a b) by lra ]
          end; cbn [negb andb]; cbv iota).

Ltac decide_Z :=
  repeat split;
  repeat match goal with
         | |- context [(?a <? ?b)%Z] => destruct (Z.ltb_spec a b)
         | |- context [(?a <=? ?b)%Z] => destruct (Z.leb_spec a b)
         end;
  (reflexivity || lia).

(** X14: with the detector that reads the size and the default
    configuration, over exact numbers, the length of the image string
    decides everything: the verdict is simple exactly above 60000
    characters, the image counts as faded exactly below 50000, and the
    request is routed to Groq exactly from 85000 characters on. *)
Theorem image_size_decides_the_route (input : OcrInput) :
  let image := ReceiptExtraction.imageBase64 input in
  let size := Z.of_nat (String.length image) in
  let verdict := classify (newBySize (R:=Q)) image in
  isSimple verdict = (60000 <? size)%Z /\
  option_map (@hasFading Q) (features verdict) = Some (size <? 50000)%Z /\
  routesToGroq (self (fresh (R:=Q) newBySize noOverrides)) input = (85000 <=? size)%Z.
Proof.
  cbv zeta.
  unfold routesToGroq, fresh, new.
  cbn [self detector config simpleConfidenceThreshold orDefault
       simpleConfidenceThreshold_opt noOverrides].
  unfold classify, newBySize, extractFeaturesBySize, detectStandardFormat,
    estimateAspectRatio. cbv zeta.
  cbn [extractFeatures SimpleReceiptDetector.config isSimple confidence features
       option_map hasFading].
  generalize (String.length (ReceiptExtraction.imageBase64 input)). intros n.
  unfold evaluateSimplicity, calculateConfidence, defaultConfig. cbv zeta.
  cbn [brightness textDensity hasStandardFormat hasHandwriting hasFading
       brightnessThreshold negb].
  cbn [num_min num_ltb num_leb num_add num_mul num_div num_dec num_of_nat Q_JsNumber].
  set (x := inject_Z (Z.of_nat n)).
  change (negb (Qle_bool (25 # 10) (15 # 10)) && negb (Qle_bool (4 # 1) (25 # 10)))
    with true.
  cbv iota. cbn [andb].
  unfold Qdiv. change (/ (100000 # 1))%Q with (1 # 100000)%Q.
  assert (Hrange : (Z.of_nat n < 50000 \/ 50000 <= Z.of_nat n <= 60000 \/
                    60000 < Z.of_nat n < 85000 \/ 85000 <= Z.of_nat n <= 100000 \/
                    100000 < Z.of_nat n)%Z) by lia.
  destruct Hrange as [Hz|[Hz|[Hz|[Hz|Hz]]]].
  - assert (Hq : (x < 50000 # 1)%Q) by (subst x; now rewrite (Zlt_Qlt _ 50000) in Hz).
    clearbody x. decide_Qle. decide_Z.
  - assert (Hq : (50000 # 1 <= x <= 60000 # 1)%Q)
      by (subst x; now rewrite (Zle_Qle 50000), (Zle_Qle _ 60000) in Hz).
    clearbody x. decide_Qle. decide_Z.
  - assert (Hq : (60000 # 1 < x < 85000 # 1)%Q)
      by (subst x; now rewrite (Zlt_Qlt 60000), (Zlt_Qlt _ 85000) in Hz).
    clearbody x. decide_Qle. decide_Z.
  - assert (Hq : (85000 # 1 <= x <= 100000 # 1)%Q)
      by (subst x; now rewrite (Zle_Qle 85000), (Zle_Qle _ 100000) in Hz).
    clearbody x. decide_Qle. decide_Z.
  - assert (Hq : (100000 # 1 < x)%Q) by (subst x; now rewrite (Zlt_Qlt 100000) in Hz).
    clearbody x. decide_Qle. decide_Z.
Qed.

(* ------------------------------------------------------------------ *)
(** ** The reason and the confidence of a verdict *)

(** The reason of a complex verdict that names no cause. *)
Definition noCause : string := "Complex receipt () - using Claude Vision".

(** One snapshot is at least as good as another: not darker, not sparser,
    standard if the other is, and with no flag the other lacks. *)
Definition atLeastAsGood (g f : Features Q) : Prop :=
  (brightness f <= brightness g)%Q /\
  (textDensity f <= textDensity g)%Q /\
  (hasStandardFormat f = true -> hasStandardFormat g = true) /\
  (hasHandwriting g = true -> hasHandwriting f = true) /\
  (hasFading g = true -> hasFading f = true).

Lemma reason_without_cause {R : Type} `{JsNumber R} (config : Config R) (f : Features R) :
  evaluateSimplicity config (Some f) = false ->
  (generateReason config (Some f) false = noCause <->
   num_ltb (brightness f) (brightnessThreshold config) = false /\
   num_ltb (brightnessThreshold config) (brightness f) = false /\
   hasStandardFormat f = true /\
   hasHandwriting f = false /\
   hasFading f = false).
Proof.
  unfold evaluateSimplicity, generateReason, noCause.
  destruct (num_ltb (brightness f) (brightnessThreshold config)),
           (num_ltb (brightnessThreshold config) (brightness f)),
           (hasStandardFormat f), (hasHandwriting f), (hasFading f);
    cbn; intros Hcomplex; split; intros Heq;
    try discriminate; try (decompose [and] Heq; discriminate); auto.
Qed.

(** X15: the reason of a complex verdict names no cause, reading
    ["Complex receipt () - using Claude Vision"], exactly when the
    brightness equals the threshold on a standard layout with no flag set:
    the simplicity test asks for a brightness above the threshold, the
    reason only reports one below it. The detector that reads the size gives
    this verdict to an image of 60000 characters. *)
Theorem reason_names_no_cause_exactly_at_the_threshold :
  (forall (config : Config Q) (f : Features Q),
     evaluateSimplicity config (Some f) = false ->
     (generateReason config (Some f) false = noCause <->
      (brightness f == brightnessThreshold config)%Q /\
      hasStandardFormat f = true /\
      hasHandwriting f = false /\
      hasFading f = false)) /\
  (let verdict := classify (newBySize (R:=float)) (padding (600 * 100)) in
   isSimple verdict = false /\ reason verdict = Some noCause).
Proof.
  split.
  - intros config f Hcomplex. rewrite (reason_without_cause _ _ Hcomplex).
    assert (Hlt : forall a b : Q, num_ltb a b = false <-> (b <= a)%Q).
    { intros a b. cbn. rewrite negb_false_iff. apply Qle_bool_iff. }
    rewrite !Hlt. split.
    + intros (H1 & H2 & Hrest). split; [|exact Hrest]. now apply Qle_antisym.
    + intros (Heq & Hrest). repeat split; try apply Hrest; rewrite Heq; apply Qle_refl.
  - cbv zeta. split; vm_compute; reflexivity.
Qed.

(** X16: over exact numbers the confidence is monotone: a snapshot that is
    at least as bright and as dense as another, standard if the other is,
    and with no penalty flag the other lacks, has at least its confidence
    (brightness and text density not being negative). *)
Theorem confidence_is_monotone (f g : Features Q) :
  (0 <= brightness f)%Q ->
  (0 <= textDensity f)%Q ->
  atLeastAsGood g f ->
  (calculateConfidence (Some f) <= calculateConfidence (Some g))%Q.
Proof.
  intros Hb Ht (Hbg & Htg & Hstd & Hhw & Hfad).
  rewrite !calculateConfidence_capped.
  apply Q.min_le_compat_r.
  unfold spec_weightedSum, spec_penalty.
  destruct (hasStandardFormat f), (hasStandardFormat g),
           (hasHandwriting f), (hasHandwriting g),
           (hasFading f), (hasFading g);
    try (specialize (Hstd eq_refl)); try (specialize (Hhw eq_refl));
    try (specialize (Hfad eq_refl)); try discriminate; lra.
Qed.

(** The features of a handwritten mock image against scenario A. *)
Lemma confidence_is_monotone_witness :
  (calculateConfidence (Some (extractFeaturesByName (R:=Q) "mock-handwritten-faded")) <=
   calculateConfidence (Some (scenarioA (R:=Q))))%Q.
Proof.
  apply confidence_is_monotone.
  - vm_compute. discriminate.
  - vm_compute. discriminate.
  - unfold atLeastAsGood. repeat split; try (vm_compute; discriminate);
      intros Hflag; vm_compute in Hflag |- *; congruence.
Defined.

(* ------------------------------------------------------------------ *)
(** ** What counts toward manual review *)

(** An attempt calls for manual review: it succeeded, and its result carries
    no confidence or one below 0.95. *)
Definition callsForReview (a : OcrAttempt Q) : bool :=
  success a &&
  match result a with
  | Some r =>
      match ReceiptExtraction.confidence r with
      | Some c => negb (Qle_bool (95 # 100) c)
      | None => true
      end
  | None => false
  end.

(** On the attempts the router records, the test of [updateMetrics],
    [a.result && (a.result.confidence || 0) < 0.95], picks the successes of
    low or missing confidence. *)
Lemma lowConfidence_of_recorded (a : OcrAttempt Q) :
  Emitted a -> lowConfidence a = callsForReview a.
Proof.
  intros [elapsed r|message|elapsed r]; unfold lowConfidence, callsForReview;
    cbn [success result groqSucceeded groqFailed claudeSucceeded andb];
    try reflexivity;
    (destruct (ReceiptExtraction.confidence r) as [c|]; [|reflexivity];
     unfold num_or_zero; cbn [num_falsy num_dec num_ltb Q_JsNumber];
     destruct (Qeq_bool c 0) eqn:Hzero; [|reflexivity];
     apply Qeq_bool_iff in Hzero;
     rewrite (Qle_bool_false (a:=95 # 100) (b:=c)) by (rewrite Hzero; reflexivity);
     reflexivity).
Qed.

(** X17: over exact numbers, on a router just constructed and after any
    number of invocations, [manualReviewRate] is 0 while the history is
    empty, and afterwards the number of recorded successes whose result has
    no confidence or one below 0.95, divided by the number of all recorded
    attempts: a failed attempt counts in the divisor and never in the
    dividend. *)
Theorem manualReviewRate_is_the_share_of_low_confidence_successes
    (detector : SimpleReceiptDetector.t Q) (config : PartialConfig Q)
    (requests : list (Adapters Q * OcrInput)) :
  let after := self (invocations requests (fresh detector config)) in
  let history := getAttempts after in
  let rate := manualReviewRate (getMetrics after) in
  (history = [] -> rate == 0)%Q /\
  (history <> [] ->
   rate == num_of_nat (List.length (filter callsForReview history)) /
           num_of_nat (List.length history))%Q.
Proof.
  cbv zeta. unfold getMetrics, getAttempts.
  destruct (constructed_router_booksBalance detector config requests)
    as (Htotal & _ & Hemitted & Hderived).
  set (after := self (invocations requests (fresh detector config))) in *.
  assert (Hsame : filter lowConfidence (attempts after) =
                  filter callsForReview (attempts after)).
  { apply filter_ext_in. intros a Ha. apply lowConfidence_of_recorded.
    rewrite Forall_forall in Hemitted. now apply Hemitted. }
  split.
  - intros Hempty.
    destruct Hderived as [(_ & _ & _ & _ & ->)|(Hsome & _)]; [|contradiction].
    reflexivity.
  - intros Hsome.
    destruct Hderived as [(Hempty & _)|(_ & _ & _ & _ & ->)]; [contradiction|].
    unfold updateMetrics. cbn [setMetrics metrics manualReviewRate].
    rewrite Htotal, Hsame.
    destruct (attempts after) as [|a rest] eqn:Hhistory; [contradiction|].
    reflexivity.
Qed.
